(** * elk: the command orchestrator [elk/__main__.py]

    A shallow embedding of the function [run] of [src/elk/__main__.py] and
    the properties of its layer resolution, output gate, dispatcher and
    elicit fallback.

    [run] is one Python function that talks to many collaborators which
    live outside the file (the argument parser, [list_runs],
    [AutoConfig.from_pretrained], [torch.distributed], [torch.cuda],
    [args_to_uuid], [run_extraction], [train], [evaluate]).  The embedding
    keeps the control flow of [run] and takes the collaborators as the
    fields of an interface, each one a function on an abstract external
    world that may return or raise. *)

From Stdlib Require Import ZArith List String Ascii Bool Lia DecimalString.
From Stdlib Require Import Sorted.
From Stdlib Require DecimalZ DecimalPos.
Import ListNotations.
Local Open Scope string_scope.
Local Open Scope Z_scope.

Set Implicit Arguments.

(** ** Python values held by the argument namespace *)

(** The attribute values [run] itself looks at: [None], booleans, integers,
    strings and lists of integers (the [--layers] option). *)
Inductive value : Type :=
  | VNone
  | VBool (b : bool)
  | VInt (z : Z)
  | VStr (s : string)
  | VList (l : list Z).

Definition list_Z_eqb (l1 l2 : list Z) : bool :=
  if list_eq_dec Z.eq_dec l1 l2 then true else false.

(** Python's [==] on these values ([True == 1] and [False == 0] hold). *)
Definition value_eqb (v w : value) : bool :=
  match v, w with
  | VNone, VNone => true
  | VBool a, VBool b => Bool.eqb a b
  | VBool a, VInt z | VInt z, VBool a => Z.b2z a =? z
  | VInt a, VInt b => a =? b
  | VStr a, VStr b => String.eqb a b
  | VList a, VList b => list_Z_eqb a b
  | _, _ => false
  end.

(** Truth value of an object in a condition ([if v:], [v and ...]). *)
Definition truthy (v : value) : bool :=
  match v with
  | VNone => false
  | VBool b => b
  | VInt z => negb (z =? 0)
  | VStr s => negb (String.eqb s "")
  | VList l => match l with [] => false | _ :: _ => true end
  end.

(** [v is None]. *)
Definition is_None (v : value) : bool :=
  match v with VNone => true | _ => false end.

(** Decimal rendering of an integer, as [str] and format fields print it. *)
Definition str_of_Z (z : Z) : string := NilZero.string_of_int (Z.to_int z).

Fixpoint join_comma (l : list string) : string :=
  match l with
  | [] => ""
  | [s] => s
  | s :: rest => s ++ ", " ++ join_comma rest
  end.

(** [str(v)], which is what an empty format field [{}] renders. *)
Definition py_str (v : value) : string :=
  match v with
  | VNone => "None"
  | VBool true => "True"
  | VBool false => "False"
  | VInt z => str_of_Z z
  | VStr s => s
  | VList l => "[" ++ join_comma (map str_of_Z l) ++ "]"
  end.

(** ** The argument namespace

    [args] is an [argparse.Namespace]: an object whose attributes are kept
    in a dict, in insertion order.  The order is visible, because [run]
    prints the attributes in that order, so the namespace is an association
    list; assigning an attribute that exists keeps its place, assigning a
    new one appends it. *)
Definition Namespace : Type := list (string * value).

Fixpoint getattr (a : Namespace) (k : string) : option value :=
  match a with
  | [] => None
  | (k', v) :: rest => if String.eqb k' k then Some v else getattr rest k
  end.

Fixpoint setattr (a : Namespace) (k : string) (v : value) : Namespace :=
  match a with
  | [] => [(k, v)]
  | (k', v') :: rest =>
      if String.eqb k' k then (k', v) :: rest else (k', v') :: setattr rest k v
  end.

(** [list(vars(args).keys())]. *)
Definition keys (a : Namespace) : list string := map fst a.

(** ** Exceptions *)

Inductive exn : Type :=
  | EOFError
  | FileNotFoundError
  | ValueError (msg : string)
  | AssertionError
  | AttributeError (attr : string)
  | TypeError
  | OtherError (descr : string).

(** The classes named by [except (EOFError, FileNotFoundError)]. *)
Definition is_missing_input (e : exn) : bool :=
  match e with
  | EOFError | FileNotFoundError => true
  | _ => false
  end.

Inductive Outcome (A : Type) : Type :=
  | Return (a : A)
  | Raise (e : exn).
Arguments Return {A} a.
Arguments Raise {A} e.

(** ** The model configuration returned by [AutoConfig.from_pretrained] *)

Record PyConfig : Type := mkPyConfig {
  is_pretrained_config : bool;          (* isinstance(config, PretrainedConfig) *)
  cfg_num_layers : option value;        (* config.num_layers, when present *)
  cfg_num_hidden_layers : option value  (* config.num_hidden_layers, when present *)
}.

(** [isinstance(v, int)]: integers and booleans. *)
Definition as_int (v : value) : option Z :=
  match v with
  | VInt z => Some z
  | VBool b => Some (Z.b2z b)
  | _ => None
  end.

(** ** [range(0, stop, step)] for a positive step

    The members are produced one by one while they are below [stop]; since
    the step is positive, [Z.to_nat stop] rounds are enough. *)
Fixpoint range_from (fuel : nat) (i stop step : Z) : list Z :=
  match fuel with
  | O => []
  | S fuel' =>
      if i <? stop then i :: range_from fuel' (i + step) stop step else []
  end.

Definition py_range (stop step : Z) : list Z :=
  range_from (Z.to_nat stop) 0 stop step.

(** The ceiling of [a / b] for a positive [b]. *)
Definition ceil_div (a b : Z) : Z := (a + b - 1) / b.

(** The list [0, s, 2s, ...] with [ceil (L / s)] members. *)
Definition multiples (L s : Z) : list Z :=
  map (fun j => Z.of_nat j * s) (seq 0 (Z.to_nat (ceil_div L s))).

(** The layer count read from a configuration, as lines 68-71 read it. *)
Definition layer_count (cfg : PyConfig) : option Z :=
  if is_pretrained_config cfg then
    match cfg_num_hidden_layers cfg with
    | Some h =>
        as_int (match cfg_num_layers cfg with Some v => v | None => h end)
    | None => None
    end
  else None.

(** ** Events: every call that leaves [run] *)

Inductive Event : Type :=
  | EvListRuns (a : Namespace)
  | EvImport (module : string)
  | EvFromPretrained (model : value)
  | EvInitProcessGroup (backend : string)
  | EvCudaIsAvailable
  | EvArgsToUuid (a : Namespace)
  | EvExtract (a : Namespace)
  | EvTrain (a : Namespace)
  | EvIsInitialized
  | EvBarrier
  | EvEvaluate (a : Namespace).

Definition is_train (e : Event) : bool :=
  match e with EvTrain _ => true | _ => false end.
Definition is_extract (e : Event) : bool :=
  match e with EvExtract _ => true | _ => false end.
Definition is_barrier (e : Event) : bool :=
  match e with EvBarrier => true | _ => false end.
Definition is_uuid (e : Event) : bool :=
  match e with EvArgsToUuid _ => true | _ => false end.
Definition is_from_pretrained (e : Event) : bool :=
  match e with EvFromPretrained _ => true | _ => false end.

Definition count (p : Event -> bool) (t : list Event) : nat :=
  List.length (filter p t).

(** [logging.ERROR]. *)
Definition logging_ERROR : Z := 40.

(** ** Collaborators

    Everything [run] calls that is defined elsewhere.  [W] is the external
    world the calls act on (the cache on disk, the process group, the
    accelerator runtime); a call maps a world to an outcome and a new world,
    so that the same call may fail once and succeed later.  The callees get
    the namespace as it is when they are called and are taken not to
    assign its attributes, nor [sys.stdout], nor the level of the
    transformers logger.  [torch.cuda.is_available()] and
    [dist.is_initialized()] are taken to read the world and answer, without
    raising.  [assert] statements are executed. *)
Class Collaborators (W : Type) : Type := {
  list_runs : Namespace -> W -> Outcome unit * W;
  from_pretrained : value -> W -> Outcome PyConfig * W;
  init_process_group : string -> W -> Outcome unit * W;
  (* the builtin [int] on a string; [None] when it raises [ValueError] *)
  int_of_str : string -> option Z;
  cuda_is_available : W -> bool;
  args_to_uuid : Namespace -> W -> Outcome value * W;
  run_extraction : Namespace -> W -> Outcome unit * W;
  train : Namespace -> W -> Outcome unit * W;
  dist_is_initialized : W -> bool;
  dist_barrier : W -> Outcome unit * W;
  evaluate : Namespace -> W -> Outcome unit * W
}.

(** ** Process state *)

Definition Handle : Type := nat.

Record State (W : Type) : Type := mkState {
  world : W;                          (* what the collaborators act on *)
  args : Namespace;                   (* the object [parse_args] returned *)
  environ_LOCAL_RANK : option string; (* os.environ.get("LOCAL_RANK") *)
  sys_stdout : option Handle;         (* sys.stdout; [None] discards *)
  printed : list (Handle * string);   (* lines written by [print] *)
  transformers_level : Z;             (* level of the "transformers" logger *)
  trace : list Event                  (* calls made so far, oldest first *)
}.
Arguments mkState {W}.

Section Run.

Context {W : Type} {C : Collaborators W}.

Definition set_world (w : W) (st : State W) : State W :=
  mkState w (args st) (environ_LOCAL_RANK st) (sys_stdout st) (printed st)
          (transformers_level st) (trace st).
Definition set_args (a : Namespace) (st : State W) : State W :=
  mkState (world st) a (environ_LOCAL_RANK st) (sys_stdout st) (printed st)
          (transformers_level st) (trace st).
Definition set_stdout (o : option Handle) (st : State W) : State W :=
  mkState (world st) (args st) (environ_LOCAL_RANK st) o (printed st)
          (transformers_level st) (trace st).
Definition set_printed (p : list (Handle * string)) (st : State W) : State W :=
  mkState (world st) (args st) (environ_LOCAL_RANK st) (sys_stdout st) p
          (transformers_level st) (trace st).
Definition set_level (l : Z) (st : State W) : State W :=
  mkState (world st) (args st) (environ_LOCAL_RANK st) (sys_stdout st)
          (printed st) l (trace st).
Definition log_event (e : Event) (st : State W) : State W :=
  mkState (world st) (args st) (environ_LOCAL_RANK st) (sys_stdout st)
          (printed st) (transformers_level st) (trace st ++ [e]).

(** ** The monad of [run]: state and exceptions *)

Definition M (A : Type) : Type := State W -> Outcome A * State W.

Definition ret {A} (a : A) : M A := fun st => (Return a, st).
Definition raise {A} (e : exn) : M A := fun st => (Raise e, st).
Definition bind {A B} (m : M A) (k : A -> M B) : M B :=
  fun st =>
    match m st with
    | (Return a, st') => k a st'
    | (Raise e, st') => (Raise e, st')
    end.

Notation "x <- m ;; k" := (bind m (fun x => k))
  (at level 100, m at next level, right associativity).
Notation "m ;;; k" := (bind m (fun _ => k))
  (at level 100, right associativity).

(** [try: m except (EOFError, FileNotFoundError): h]. *)
Definition try_missing_input {A} (m : M A) (h : M A) : M A :=
  fun st =>
    match m st with
    | (Return a, st') => (Return a, st')
    | (Raise e, st') => if is_missing_input e then h st' else (Raise e, st')
    end.

Definition get_args : M Namespace := fun st => (Return (args st), st).

(** [args.k]. *)
Definition attr (k : string) : M value :=
  fun st =>
    match getattr (args st) k with
    | Some v => (Return v, st)
    | None => (Raise (AttributeError k), st)
    end.

(** [args.k = v]. *)
Definition assign (k : string) (v : value) : M unit :=
  fun st => (Return tt, set_args (setattr (args st) k v) st).

(** A call of a collaborator: it is logged, then acts on the world. *)
Definition call {A} (e : Event) (f : W -> Outcome A * W) : M A :=
  fun st =>
    let (r, w) := f (world st) in
    (r, set_world w (log_event e st)).

(** A collaborator that only reads the world. *)
Definition query (e : Event) (f : W -> bool) : M bool :=
  fun st => (Return (f (world st)), log_event e st).

Definition import_ (module : string) : M unit :=
  fun st => (Return tt, log_event (EvImport module) st).

(** [print(line)]: nothing happens when [sys.stdout] is [None]. *)
Definition print (line : string) : M unit :=
  fun st =>
    match sys_stdout st with
    | Some h => (Return tt, set_printed (printed st ++ [(h, line)]) st)
    | None => (Return tt, st)
    end.

(** [assert b]. *)
Definition assert (b : bool) : M unit :=
  if b then ret tt else raise AssertionError.

(** [v > 1]: defined on integers and booleans, a [TypeError] otherwise. *)
Definition gt_one (v : value) : M bool :=
  match as_int v with
  | Some z => ret (1 <? z)
  | None => raise TypeError
  end.

(** [contextlib.redirect_stdout(target)] around [body]: the old
    [sys.stdout] is saved on entry and put back on exit, whether the body
    returns or raises. *)
Definition redirect_stdout {A} (target : option Handle) (body : M A) : M A :=
  fun st =>
    let old := sys_stdout st in
    let (r, st') := body (set_stdout target st) in
    (r, set_stdout old st').

Definition nullcontext {A} (body : M A) : M A := body.

(** ** [run], lines 64-78: layer resolution *)

Definition conflict_message : string :=
  "Cannot use both --layers and --layer-stride. Please use only one.".

Definition resolve_layers : M unit :=
  a <- get_args ;;
  let model := match getattr a "model" with Some v => v | None => VNone end in
  if truthy model then
    config <- call (EvFromPretrained model) (from_pretrained model) ;;
    assert (is_pretrained_config config) ;;;
    hidden <- match cfg_num_hidden_layers config with
              | Some v => ret v
              | None => raise (AttributeError "num_hidden_layers")
              end ;;
    let n := match cfg_num_layers config with Some v => v | None => hidden end in
    num_layers <- match as_int n with
                  | Some z => ret z
                  | None => raise AssertionError
                  end ;;
    layers <- attr "layers" ;;
    both <- (if truthy layers
             then (s <- attr "layer_stride" ;; gt_one s)
             else ret false) ;;
    if both then raise (ValueError conflict_message)
    else
      s <- attr "layer_stride" ;;
      strided <- gt_one s ;;
      if strided then
        s' <- attr "layer_stride" ;;
        match as_int s' with
        | Some step => assign "layers" (VList (py_range num_layers step))
        | None => raise TypeError
        end
      else ret tt
  else ret tt.

(** ** [run], lines 80-89: rank and process group *)

Definition init_distributed : M Z :=
  fun st =>
    match environ_LOCAL_RANK st with
    | Some s =>
        (call (EvInitProcessGroup "nccl") (init_process_group "nccl") ;;;
         match int_of_str s with
         | Some z => ret z
         | None => raise (ValueError "invalid literal for int()")
         end) st
    | None => (Return 0, st)
    end.

(** ** [run], lines 91-98: device *)

Definition resolve_device (local_rank : Z) : M unit :=
  d <- attr "device" ;;
  if is_None d then
    import_ "torch" ;;;
    available <- query EvCudaIsAvailable cuda_is_available ;;
    if negb available then assign "device" (VStr "cpu")
    else
      let r := if truthy (VInt local_rank) then local_rank else 0 in
      assign "device" (VStr ("cuda:" ++ str_of_Z r))
  else ret tt.

(** ** [run], lines 102-104: echo of the arguments *)

Fixpoint print_keys (ks : list string) : M unit :=
  match ks with
  | [] => ret tt
  | k :: rest =>
      a <- get_args ;;
      match getattr a k with
      | Some v => print (k ++ ": " ++ py_str v) ;;; print_keys rest
      | None => raise (OtherError "KeyError")
      end
  end.

Definition echo_args : M unit :=
  a <- get_args ;; print_keys (keys a).

(** ** [run], lines 122-128: the handler of the elicit branch *)

Definition elicit_fallback : M unit :=
  a <- get_args ;;
  call (EvExtract a) (run_extraction a) ;;;
  initialized <- query EvIsInitialized dist_is_initialized ;;
  (if initialized then call EvBarrier dist_barrier else ret tt) ;;;
  a' <- get_args ;;
  call (EvTrain a') (train a').

(** ** [run], lines 117-128: the elicit branch *)

Definition elicit : M unit :=
  a0 <- get_args ;;
  name <- call (EvArgsToUuid a0) (args_to_uuid a0) ;;
  assign "name" name ;;;
  try_missing_input
    (a <- get_args ;; call (EvTrain a) (train a))
    elicit_fallback.

(** ** [run], lines 113-135: dispatch *)

Definition dispatch : M unit :=
  c <- attr "command" ;;
  if value_eqb c (VStr "extract") then
    a <- get_args ;; call (EvExtract a) (run_extraction a)
  else
    c <- attr "command" ;;
    if value_eqb c (VStr "train") then
      a <- get_args ;; call (EvTrain a) (train a)
    else
      c <- attr "command" ;;
      if value_eqb c (VStr "elicit") then elicit
      else
        c <- attr "command" ;;
        if value_eqb c (VStr "eval") then
          a <- get_args ;; call (EvEvaluate a) (evaluate a)
        else
          c <- attr "command" ;;
          raise (ValueError ("Unknown command " ++ py_str c)).

(** ** [run], lines 102-135: the body of the [with] block *)

Definition gated_body (local_rank : Z) : M unit :=
  echo_args ;;;
  (if negb (local_rank =? 0)
   then (fun st => (Return tt, set_level logging_ERROR st))
   else ret tt) ;;;
  import_ "elk.extraction.extraction_main" ;;;
  import_ "elk.training.train" ;;;
  dispatch.

(** ** [run], lines 100-101: the output gate *)

Definition output_gate {A} (local_rank : Z) (body : M A) : M A :=
  if negb (local_rank =? 0) then redirect_stdout None body
  else nullcontext body.

(** ** [run], lines 64-98: what runs between the [list] shortcut and the
    [with] block; its result is [local_rank] *)

Definition startup : M Z :=
  import_ "transformers" ;;;
  resolve_layers ;;;
  import_ "torch.distributed" ;;;
  local_rank <- init_distributed ;;
  resolve_device local_rank ;;;
  ret local_rank.

(** ** [run], lines 64-135: everything after the [list] shortcut *)

Definition heavy_path : M unit :=
  local_rank <- startup ;;
  output_gate local_rank (gated_body local_rank).

(** ** [run]

    The namespace in the initial state is what [parser.parse_args()]
    returned. *)
Definition run : M unit :=
  c <- attr "command" ;;
  if value_eqb c (VStr "list") then
    a <- get_args ;; call (EvListRuns a) (list_runs a)
  else heavy_path.

(** ** Vocabulary of the statements *)

(** [keeps R m]: the state after [m] is related by [R] to the state before,
    whether [m] returns or raises. *)
Definition keeps (R : State W -> State W -> Prop) {A} (m : M A) : Prop :=
  forall st, R st (snd (m st)).

(** The standard output and the logger are as they were. *)
Definition same_output (st st' : State W) : Prop :=
  sys_stdout st' = sys_stdout st /\ printed st' = printed st /\
  transformers_level st' = transformers_level st.

Definition same_stdout (st st' : State W) : Prop :=
  sys_stdout st' = sys_stdout st.

Definition same_environ (st st' : State W) : Prop :=
  environ_LOCAL_RANK st' = environ_LOCAL_RANK st.

(** The model-config provider has not been called and [layers] reads as
    it did. *)
Definition provider_and_layers_untouched (st st' : State W) : Prop :=
  count is_from_pretrained (trace st') = count is_from_pretrained (trace st)
  /\ getattr (args st') "layers" = getattr (args st) "layers".

(** Every attribute outside [ks] reads as it did. *)
Definition same_attrs_except (ks : list string) (st st' : State W) : Prop :=
  forall k, ~ In k ks -> getattr (args st') k = getattr (args st) k.

(** The lines [key: value] of the namespace [a], written to [h]. *)
Definition echo_lines (h : Handle) (a : Namespace) : list (Handle * string) :=
  map (fun k => (h, k ++ ": " ++
                    py_str (match getattr a k with Some v => v | None => VNone end)))
      (keys a).

(** The state in which the handler of line 121 starts: the identity has
    been computed and assigned, and the first [train] has raised. *)
Definition after_first_train (st : State W) (u : value) (w2 : W) : State W :=
  let a1 := setattr (args st) "name" u in
  mkState w2 a1 (environ_LOCAL_RANK st) (sys_stdout st) (printed st)
    (transformers_level st)
    (trace st ++ [EvArgsToUuid (args st); EvTrain a1]).

(** The call [e] is a [train] or a [run_extraction] of the namespace [a],
    or another kind of call. *)
Definition addressed_at (a : Namespace) (e : Event) : Prop :=
  match e with
  | EvTrain a' | EvExtract a' => a' = a
  | _ => True
  end.

End Run.

(** ** A concrete set of collaborators

    A small world to run the model on: a cache that [run_extraction] fills
    and [train] needs, and that may be corrupt; a disk that may be full; a
    process group whose barrier may be broken; an accelerator; a model with
    a known number of layers. *)
Module Fixture.

Record World : Type := mkWorld {
  cache_ready : bool;
  cache_corrupt : bool;
  disk_full : bool;
  group_up : bool;
  barrier_broken : bool;
  has_cuda : bool;
  model_layers : Z
}.

Definition digit_of (c : ascii) : option Z :=
  let n := Z.of_nat (nat_of_ascii c) in
  if (48 <=? n) && (n <=? 57) then Some (n - 48) else None.

Fixpoint digits (s : string) (acc : Z) : option Z :=
  match s with
  | EmptyString => Some acc
  | String c rest =>
      match digit_of c with
      | Some d => digits rest (10 * acc + d)
      | None => None
      end
  end.

Definition parse_int (s : string) : option Z :=
  match s with
  | EmptyString => None
  | _ => digits s 0
  end.

#[export] Instance collaborators : Collaborators World := {|
  list_runs := fun _ w => (Return tt, w);
  from_pretrained := fun _ w =>
    (Return (mkPyConfig true None (Some (VInt (model_layers w)))), w);
  init_process_group := fun _ w =>
    (Return tt,
     mkWorld (cache_ready w) (cache_corrupt w) (disk_full w) true
             (barrier_broken w) (has_cuda w) (model_layers w));
  int_of_str := parse_int;
  cuda_is_available := has_cuda;
  args_to_uuid := fun _ w => (Return (VStr "run-0"), w);
  run_extraction := fun _ w =>
    if disk_full w then (Raise (OtherError "IOFailure"), w)
    else (Return tt,
          mkWorld true (cache_corrupt w) (disk_full w) (group_up w)
                  (barrier_broken w) (has_cuda w) (model_layers w));
  train := fun _ w =>
    if cache_corrupt w then (Raise (OtherError "UnpicklingError"), w)
    else if cache_ready w then (Return tt, w)
    else (Raise FileNotFoundError, w);
  dist_is_initialized := group_up;
  dist_barrier := fun w =>
    if barrier_broken w then (Raise (OtherError "RuntimeError"), w)
    else (Return tt, w);
  evaluate := fun _ w => (Return tt, w)
|}.

(** An empty cache, no accelerator, a model of twelve layers. *)
Definition fresh_world : World :=
  mkWorld false false false false false false 12.

(** The same with a disk on which extraction fails. *)
Definition full_disk_world : World :=
  mkWorld false false true false false false 12.

(** The same with a cache that cannot be read. *)
Definition corrupt_world : World :=
  mkWorld false true false false false false 12.

(** An empty cache in an initialized process group. *)
Definition group_world : World :=
  mkWorld false false false true false false 12.

(** The same with a barrier that fails. *)
Definition broken_group_world : World :=
  mkWorld false false false true true false 12.

(** The worlds above once the cache has been written. *)
Definition filled (w : World) : World :=
  mkWorld true (cache_corrupt w) (disk_full w) (group_up w)
          (barrier_broken w) (has_cuda w) (model_layers w).

Definition start (w : World) (a : Namespace) (rank : option string)
  : State World :=
  mkState w a rank (Some 1%nat) [] 30 [].

(** [elk elicit gpt2 imdb] *)
Definition elicit_args : Namespace :=
  [("command", VStr "elicit"); ("model", VStr "gpt2");
   ("layers", VList []); ("layer_stride", VInt 1); ("device", VNone)].

(** [elk extract gpt2 imdb --layer-stride 5] *)
Definition stride_args : Namespace :=
  [("command", VStr "extract"); ("model", VStr "gpt2");
   ("layers", VList []); ("layer_stride", VInt 5); ("device", VStr "cpu")].

(** [elk extract gpt2 imdb --layers 1 2 --layer-stride 2] *)
Definition conflict_args : Namespace :=
  [("command", VStr "extract"); ("model", VStr "gpt2");
   ("layers", VList [1; 2]); ("layer_stride", VInt 2); ("device", VStr "cpu")].

(** The same options on a namespace without a model. *)
Definition no_model_args : Namespace :=
  [("command", VStr "eval");
   ("layers", VList [1; 2]); ("layer_stride", VInt 2); ("device", VStr "cpu")].

(** [elk list] *)
Definition list_args : Namespace := [("command", VStr "list")].

End Fixture.

(** ** Kinds of calls, for the statements about the rest of [run] *)

Definition is_init_group (e : Event) : bool :=
  match e with EvInitProcessGroup _ => true | _ => false end.
Definition is_cuda_probe (e : Event) : bool :=
  match e with EvCudaIsAvailable => true | _ => false end.
Definition is_group_query (e : Event) : bool :=
  match e with EvIsInitialized => true | _ => false end.

(** A call of one of the stages of the pipeline. *)
Definition is_stage (e : Event) : bool :=
  match e with
  | EvListRuns _ | EvExtract _ | EvTrain _ | EvEvaluate _ => true
  | _ => false
  end.

(** The device string of line 98. *)
Definition cuda_device (local_rank : Z) : value :=
  VStr ("cuda:" ++ str_of_Z (if truthy (VInt local_rank) then local_rank else 0)).

(** No call of kind [p] has been added and the attributes [ks] read as
    they did. *)
Definition untouched {W : Type} (p : Event -> bool) (ks : list string)
    (a b : State W) : Prop :=
  count p (trace b) = count p (trace a)
  /\ forall k, In k ks -> getattr (args b) k = getattr (args a) k.

(** More inputs for the concrete collaborators. *)
Module MoreFixture.

Import Fixture.

(** The collaborators of [Fixture] with a provider that answers [cfg]. *)
Definition collaborators_with_config (cfg : PyConfig) : Collaborators World := {|
  list_runs := @list_runs _ collaborators;
  from_pretrained := fun _ w => (Return cfg, w);
  init_process_group := @init_process_group _ collaborators;
  int_of_str := @int_of_str _ collaborators;
  cuda_is_available := @cuda_is_available _ collaborators;
  args_to_uuid := @args_to_uuid _ collaborators;
  run_extraction := @run_extraction _ collaborators;
  train := @train _ collaborators;
  dist_is_initialized := @dist_is_initialized _ collaborators;
  dist_barrier := @dist_barrier _ collaborators;
  evaluate := @evaluate _ collaborators
|}.

(** An empty cache on a machine with accelerators. *)
Definition cuda_world : World :=
  mkWorld false false false false false true 12.

(** A cache that has been written. *)
Definition ready_world : World :=
  mkWorld true false false false false false 12.

(** [elk train run-0] *)
Definition train_args : Namespace :=
  [("command", VStr "train"); ("name", VStr "run-0"); ("device", VStr "cpu")].

(** [elk eval run-0 gpt2 imdb] *)
Definition eval_args : Namespace :=
  [("command", VStr "eval"); ("name", VStr "run-0"); ("device", VStr "cpu")].

(** A namespace whose command is none of the five. *)
Definition bogus_args : Namespace :=
  [("command", VStr "probe"); ("device", VStr "cpu")].

(** [elk extract gpt2 imdb --layer-stride 5 --device cuda:3] *)
Definition pinned_args : Namespace :=
  [("command", VStr "extract"); ("model", VStr "gpt2");
   ("layers", VList []); ("layer_stride", VInt 5); ("device", VStr "cuda:3")].

End MoreFixture.

(** * Properties *)

(** ** Namespaces *)

Lemma getattr_setattr_same (a : Namespace) (k : string) (v : value) :
  getattr (setattr a k v) k = Some v.
Proof.
  induction a as [|[k' v'] rest IH]; simpl.
  - now rewrite String.eqb_refl.
  - destruct (String.eqb k' k) eqn:E; simpl; rewrite E; auto.
Qed.

Lemma getattr_setattr_other (a : Namespace) (k k' : string) (v : value) :
  k' <> k -> getattr (setattr a k v) k' = getattr a k'.
Proof.
  intros Hne. induction a as [|[k0 v0] rest IH]; simpl.
  - destruct (String.eqb k k') eqn:E; auto.
    apply String.eqb_eq in E. congruence.
  - destruct (String.eqb k0 k) eqn:E; simpl.
    + destruct (String.eqb k0 k') eqn:E'; auto.
      apply String.eqb_eq in E, E'. congruence.
    + now rewrite IH.
Qed.

Lemma getattr_of_key (a : Namespace) (k : string) :
  In k (keys a) -> exists v, getattr a k = Some v.
Proof.
  induction a as [|[k' v'] rest IH]; simpl; [tauto|].
  intros H. destruct (String.eqb k' k) eqn:E; [eauto|].
  destruct H as [H|H]; [|auto].
  subst. now rewrite String.eqb_refl in E.
Qed.

Lemma count_app (p : Event -> bool) (t u : list Event) :
  count p (t ++ u) = (count p t + count p u)%nat.
Proof. unfold count. now rewrite filter_app, length_app. Qed.

(** ** Ranges *)

Lemma ceil_div_is_ceiling (a b : Z) :
  0 < b -> (ceil_div a b - 1) * b < a <= ceil_div a b * b.
Proof.
  intros Hb. unfold ceil_div.
  pose proof (Z.div_mod (a + b - 1) b ltac:(lia)) as E.
  pose proof (Z.mod_pos_bound (a + b - 1) b Hb) as B.
  nia.
Qed.

Lemma ceil_div_nonpos (a b : Z) : 0 < b -> a <= 0 -> ceil_div a b <= 0.
Proof.
  intros Hb Ha. pose proof (ceil_div_is_ceiling a Hb). nia.
Qed.

Lemma ceil_div_step (a b : Z) :
  0 < b -> 0 < a -> ceil_div a b = 1 + ceil_div (a - b) b /\ 0 <= ceil_div (a - b) b.
Proof.
  intros Hb Ha. unfold ceil_div.
  replace (a + b - 1) with ((a - b + b - 1) + 1 * b) by lia.
  rewrite Z.div_add by lia. split; [lia|].
  apply Z.div_pos; lia.
Qed.

Lemma range_from_spec (stop step : Z) (fuel : nat) :
  0 < step ->
  forall i, stop - i <= Z.of_nat fuel ->
  range_from fuel i stop step =
  map (fun j => i + Z.of_nat j * step)
      (seq 0 (Z.to_nat (ceil_div (stop - i) step))).
Proof.
  intros Hs. induction fuel as [|fuel IH]; intros i Hf.
  - simpl. pose proof (@ceil_div_nonpos (stop - i) step Hs ltac:(lia)).
    replace (Z.to_nat _) with O by lia. reflexivity.
  - simpl. destruct (i <? stop) eqn:E.
    + apply Z.ltb_lt in E.
      destruct (@ceil_div_step (stop - i) step Hs ltac:(lia)) as [Hc Hp].
      rewrite Hc, Z2Nat.inj_add by lia. simpl (Z.to_nat 1 + _)%nat.
      cbn [seq map]. f_equal; [lia|].
      rewrite IH by lia. rewrite <- seq_shift, map_map.
      replace (stop - (i + step)) with (stop - i - step) by lia.
      apply map_ext. intros j. lia.
    + apply Z.ltb_ge in E.
      pose proof (@ceil_div_nonpos (stop - i) step Hs ltac:(lia)).
      replace (Z.to_nat _) with O by lia. reflexivity.
Qed.

Lemma py_range_multiples (L s : Z) : 0 < s -> py_range L s = multiples L s.
Proof.
  intros Hs. unfold py_range, multiples.
  rewrite range_from_spec by lia.
  rewrite Z.sub_0_r. apply map_ext. intros j. lia.
Qed.

Lemma multiples_length (L s : Z) :
  0 < s -> 0 <= L -> Z.of_nat (List.length (multiples L s)) = ceil_div L s.
Proof.
  intros Hs HL. unfold multiples. rewrite length_map, length_seq.
  apply Z2Nat.id. unfold ceil_div. apply Z.div_pos; lia.
Qed.

Lemma multiples_bound (L s : Z) :
  0 < s -> Forall (fun x => 0 <= x < L) (multiples L s).
Proof.
  intros Hs. unfold multiples. apply Forall_forall. intros x Hx.
  apply in_map_iff in Hx. destruct Hx as [j [<- Hj]].
  apply in_seq in Hj. pose proof (ceil_div_is_ceiling L Hs). nia.
Qed.

Section Properties.

Context {W : Type} {C : Collaborators W}.

Ltac unfold_m :=
  unfold bind, ret, raise, get_args, attr, assign, call, query, import_,
    assert, gt_one, try_missing_input in *.

Ltac run_m := repeat (progress (unfold_m; simpl)).

(** ** Layer resolution *)

(** Lines 66-71 when the model is set and the provider answers with a
    usable configuration: the provider has been called once, and the test of
    line 73 comes next. *)
Lemma resolve_layers_after_query (st : State W) (m : value) (cfg : PyConfig)
    (w' : W) (L : Z) (lv sv : value) (s : Z) :
  getattr (args st) "model" = Some m -> truthy m = true ->
  from_pretrained m (world st) = (Return cfg, w') ->
  layer_count cfg = Some L ->
  getattr (args st) "layers" = Some lv ->
  getattr (args st) "layer_stride" = Some sv ->
  as_int sv = Some s ->
  resolve_layers st =
  let st1 := set_world w' (log_event (EvFromPretrained m) st) in
  if truthy lv && (1 <? s)
  then (Raise (ValueError conflict_message), st1)
  else if 1 <? s
       then (Return tt, set_args (setattr (args st) "layers"
                                   (VList (py_range L s))) st1)
       else (Return tt, st1).
Proof.
  intros Hm Ht Hq HL Hl Hs Hi.
  unfold layer_count in HL.
  destruct (is_pretrained_config cfg) eqn:Hp; [|discriminate].
  destruct (cfg_num_hidden_layers cfg) as [h|] eqn:Hh; [|discriminate].
  unfold resolve_layers. run_m. rewrite Hm, Ht, Hq. run_m.
  rewrite Hp, Hh. run_m. rewrite HL. run_m. rewrite Hl.
  destruct (1 <? s) eqn:E; destruct (truthy lv);
    repeat (progress (run_m; rewrite ?Hs, ?Hi, ?E)); reflexivity.
Qed.

(** C4, as amended: with a model identifier, a non-empty explicit layer
    list and a stride above one, layer resolution first asks the
    model-config provider for the configuration (line 67, once); when the
    provider answers with a usable configuration, resolution then fails with
    the conflict error of line 74 and assigns nothing; and [run] ends there,
    with that error, before any later step. *)
Theorem conflict_raised_after_provider_query (st : State W) (m : value)
    (cfg : PyConfig) (w' : W) (L : Z) (lv sv : value) (s : Z) :
  getattr (args st) "model" = Some m -> truthy m = true ->
  from_pretrained m (world st) = (Return cfg, w') ->
  layer_count cfg = Some L ->
  getattr (args st) "layers" = Some lv -> truthy lv = true ->
  getattr (args st) "layer_stride" = Some sv ->
  as_int sv = Some s -> 1 < s ->
  resolve_layers st =
    (Raise (ValueError conflict_message),
     set_world w' (log_event (EvFromPretrained m) st))
  /\ (forall c, getattr (args st) "command" = Some c ->
      value_eqb c (VStr "list") = false ->
      run st =
        (Raise (ValueError conflict_message),
         set_world w' (log_event (EvFromPretrained m)
                         (log_event (EvImport "transformers") st)))).
Proof.
  intros Hm Ht Hq HL Hl Htl Hs Hi Hgt.
  assert (E : (1 <? s) = true) by (apply Z.ltb_lt; exact Hgt).
  split.
  - rewrite (resolve_layers_after_query st Hm Ht Hq HL Hl Hs Hi).
    rewrite Htl, E. reflexivity.
  - intros c Hc Hn. unfold run. unfold bind at 1. unfold attr at 1.
    rewrite Hc, Hn. unfold heavy_path, startup.
    unfold bind at 1. unfold bind at 1. unfold bind at 1.
    unfold import_ at 1.
    rewrite (@resolve_layers_after_query
               (log_event (EvImport "transformers") st) m cfg w' L lv sv s);
      auto.
    rewrite Htl, E. reflexivity.
Qed.

(** C5: with a model whose layer count is [L], no explicit layers and a
    stride [s > 1], the layers become [0, s, 2s, ...]: the multiples of [s]
    below [L], [ceil (L / s)] of them ([L] being a count, that is, not
    negative); and whenever the stride is not above one, layer resolution
    leaves the namespace as it was. *)
Theorem strided_layers_resolved (st : State W) (sv : value) (s : Z) :
  getattr (args st) "layer_stride" = Some sv -> as_int sv = Some s ->
  (forall m cfg w' L lv,
     1 < s ->
     getattr (args st) "model" = Some m -> truthy m = true ->
     from_pretrained m (world st) = (Return cfg, w') ->
     layer_count cfg = Some L ->
     getattr (args st) "layers" = Some lv -> truthy lv = false ->
     fst (resolve_layers st) = Return tt
     /\ args (snd (resolve_layers st)) =
          setattr (args st) "layers" (VList (multiples L s))
     /\ getattr (args (snd (resolve_layers st))) "layers" =
          Some (VList (multiples L s))
     /\ multiples L s =
          map (fun j => Z.of_nat j * s) (seq 0 (Z.to_nat (ceil_div L s)))
     /\ Forall (fun x => 0 <= x < L) (multiples L s)
     /\ (0 <= L -> Z.of_nat (List.length (multiples L s)) = ceil_div L s)
     /\ (ceil_div L s - 1) * s < L <= ceil_div L s * s)
  /\ (s <= 1 -> args (snd (resolve_layers st)) = args st).
Proof.
  intros Hs Hi. split.
  - intros m cfg w' L lv Hgt Hm Ht Hq HL Hl Hf.
    assert (E : (1 <? s) = true) by (apply Z.ltb_lt; exact Hgt).
    rewrite (resolve_layers_after_query st Hm Ht Hq HL Hl Hs Hi).
    rewrite Hf, E. cbn [andb fst snd]. rewrite py_range_multiples by lia.
    repeat split.
    + simpl. apply getattr_setattr_same.
    + apply multiples_bound. lia.
    + intros H0. apply multiples_length; lia.
    + apply ceil_div_is_ceiling. lia.
    + apply ceil_div_is_ceiling. lia.
  - intros Hle.
    assert (E : (1 <? s) = false) by (apply Z.ltb_ge; exact Hle).
    unfold resolve_layers. run_m.
    destruct (truthy _); [|reflexivity]. run_m.
    destruct (from_pretrained _ _) as [[cfg|e] w']; [|reflexivity]. run_m.
    destruct (is_pretrained_config cfg); [|reflexivity]. run_m.
    destruct (cfg_num_hidden_layers cfg) as [h|]; [|reflexivity]. run_m.
    destruct (as_int (match cfg_num_layers cfg with Some _ => _ | None => _ end));
      [|reflexivity]. run_m.
    destruct (getattr (args st) "layers") as [lv|]; [|reflexivity]. run_m.
    destruct (truthy lv);
      repeat (progress (run_m; rewrite ?Hs, ?Hi, ?E)); reflexivity.
Qed.

(** Lines 66-78 with no model: nothing happens. *)
Lemma resolve_layers_skipped (st : State W) :
  match getattr (args st) "model" with
  | Some m => truthy m = false
  | None => True
  end ->
  resolve_layers st = (Return tt, st).
Proof.
  intros H. unfold resolve_layers. run_m.
  destruct (getattr (args st) "model") as [m|]; [rewrite H|]; reflexivity.
Qed.

(** ** What a computation leaves alone

    [keeps R m]: the state after [m] is related by [R] to the state before,
    whether [m] returns or raises.  The lemmas of this section are shared
    by every preservation property of [run]: [R] is a preorder on states,
    [loggable] the events and [assignable] the attributes that [R]
    tolerates. *)

Section Frame.

Variable R : State W -> State W -> Prop.
Variable loggable : Event -> Prop.
Variable assignable : string -> Prop.

Hypothesis R_refl : forall st, R st st.
Hypothesis R_trans : forall a b c, R a b -> R b c -> R a c.
Hypothesis R_log : forall e st, loggable e -> R st (log_event e st).
Hypothesis R_world : forall w st, R st (set_world w st).
Hypothesis R_assign : forall k v st,
  assignable k -> R st (set_args (setattr (args st) k v) st).
Hypothesis R_print : forall line st, R st (snd (print line st)).
Hypothesis R_level : forall l st, R st (set_level l st).
Hypothesis R_redirect : forall o (body : M unit),
  keeps R body -> keeps R (redirect_stdout o body).

Lemma bind_assoc {A B D} (m : M A) (k : A -> M B) (h : B -> M D)
    (st : State W) :
  bind (bind m k) h st = bind m (fun a => bind (k a) h) st.
Proof. unfold bind. destruct (m st) as [[a|e] st']; reflexivity. Qed.

Lemma keeps_ret {A} (a : A) : keeps R (ret a).
Proof. intros st. apply R_refl. Qed.

Lemma keeps_raise {A} (e : exn) : keeps R (@raise W A e).
Proof. intros st. apply R_refl. Qed.

Lemma keeps_get_args : keeps R get_args.
Proof. intros st. apply R_refl. Qed.

Lemma keeps_attr (k : string) : keeps R (attr k).
Proof.
  intros st. unfold attr. destruct (getattr (args st) k); apply R_refl.
Qed.

Lemma keeps_assert (b : bool) : keeps R (assert b).
Proof. destruct b; [apply keeps_ret | apply keeps_raise]. Qed.

Lemma keeps_gt_one (v : value) : keeps R (gt_one v).
Proof.
  unfold gt_one. destruct (as_int v); [apply keeps_ret | apply keeps_raise].
Qed.

Lemma keeps_bind {A B} (m : M A) (k : A -> M B) :
  keeps R m -> (forall a, keeps R (k a)) -> keeps R (bind m k).
Proof.
  intros Hm Hk st. unfold bind. specialize (Hm st).
  destruct (m st) as [[a|e] st']; simpl in *; auto.
  eapply R_trans; [exact Hm | apply Hk].
Qed.

Lemma keeps_try {A} (m h : M A) :
  keeps R m -> keeps R h -> keeps R (try_missing_input m h).
Proof.
  intros Hm Hh st. unfold try_missing_input. specialize (Hm st).
  destruct (m st) as [[a|e] st']; simpl in *; auto.
  destruct (is_missing_input e); simpl; auto.
  eapply R_trans; [exact Hm | apply Hh].
Qed.

Lemma keeps_call {A} (e : Event) (f : W -> Outcome A * W) :
  loggable e -> keeps R (call e f).
Proof.
  intros He st. unfold call. destruct (f (world st)) as [r w]. simpl.
  eapply R_trans; [apply R_log; exact He | apply R_world].
Qed.

Lemma keeps_query (e : Event) (f : W -> bool) :
  loggable e -> keeps R (query e f).
Proof. intros He st. apply R_log. exact He. Qed.

Lemma keeps_import (module : string) :
  loggable (EvImport module) -> keeps R (import_ module).
Proof. intros He st. apply R_log. exact He. Qed.

Lemma keeps_assign (k : string) (v : value) :
  assignable k -> keeps R (assign k v).
Proof. intros Hk st. apply R_assign. exact Hk. Qed.

Ltac frame :=
  repeat first
    [ apply keeps_ret | apply keeps_raise | apply keeps_get_args
    | apply keeps_attr | apply keeps_assert | apply keeps_gt_one
    | apply keeps_call | apply keeps_query | apply keeps_import
    | apply keeps_assign | apply keeps_try
    | apply keeps_bind; [|intros ?]
    | match goal with
      | |- keeps _ (if ?b then _ else _) => destruct b
      | |- keeps _ (match ?x with _ => _ end) => destruct x
      end
    | progress cbv zeta ];
  auto.

Lemma keeps_resolve_layers :
  (forall m, loggable (EvFromPretrained m)) -> assignable "layers" ->
  keeps R resolve_layers.
Proof. intros Hl Ha. unfold resolve_layers. frame. Qed.

Lemma keeps_init_distributed :
  loggable (EvInitProcessGroup "nccl") -> keeps R init_distributed.
Proof.
  intros Hl st. unfold init_distributed.
  destruct (environ_LOCAL_RANK st); [|apply R_refl].
  revert st. frame.
Qed.

Lemma keeps_resolve_device (local_rank : Z) :
  loggable (EvImport "torch") -> loggable EvCudaIsAvailable ->
  assignable "device" ->
  keeps R (resolve_device local_rank).
Proof. intros H1 H2 Ha. unfold resolve_device. frame. Qed.

Lemma keeps_startup :
  (forall m, loggable (EvImport m)) ->
  (forall m, loggable (EvFromPretrained m)) ->
  loggable (EvInitProcessGroup "nccl") -> loggable EvCudaIsAvailable ->
  assignable "layers" -> assignable "device" ->
  keeps R startup.
Proof.
  intros H1 H2 H3 H4 A1 A2. unfold startup. frame.
  all: first [ apply keeps_resolve_layers | apply keeps_init_distributed
             | apply keeps_resolve_device ]; auto.
Qed.

Lemma keeps_elicit :
  (forall a, loggable (EvArgsToUuid a)) ->
  (forall a, loggable (EvTrain a)) -> (forall a, loggable (EvExtract a)) ->
  loggable EvIsInitialized -> loggable EvBarrier ->
  assignable "name" ->
  keeps R elicit.
Proof. intros H1 H2 H3 H4 H5 A. unfold elicit. frame. Qed.

Lemma keeps_dispatch :
  (forall a, loggable (EvArgsToUuid a)) ->
  (forall a, loggable (EvTrain a)) -> (forall a, loggable (EvExtract a)) ->
  (forall a, loggable (EvEvaluate a)) ->
  loggable EvIsInitialized -> loggable EvBarrier ->
  assignable "name" ->
  keeps R dispatch.
Proof.
  intros H1 H2 H3 H4 H5 H6 A. unfold dispatch. frame.
  all: try (apply keeps_elicit; auto).
Qed.

Lemma keeps_print_keys (ks : list string) : keeps R (print_keys ks).
Proof.
  induction ks as [|k rest IH]; simpl; frame.
  intros st. apply R_print.
Qed.

Lemma keeps_gated_body (local_rank : Z) :
  (forall m, loggable (EvImport m)) ->
  (forall a, loggable (EvArgsToUuid a)) ->
  (forall a, loggable (EvTrain a)) -> (forall a, loggable (EvExtract a)) ->
  (forall a, loggable (EvEvaluate a)) ->
  loggable EvIsInitialized -> loggable EvBarrier ->
  assignable "name" ->
  keeps R (gated_body local_rank).
Proof.
  intros H0 H1 H2 H3 H4 H5 H6 A. unfold gated_body, echo_args. frame.
  all: first [ apply keeps_print_keys | apply keeps_dispatch; auto
             | intros st; apply R_level ].
Qed.

Lemma keeps_run :
  (forall e, loggable e) ->
  assignable "layers" -> assignable "device" -> assignable "name" ->
  keeps R run.
Proof.
  intros HL A1 A2 A3. unfold run, heavy_path. frame.
  - apply keeps_init_distributed; auto.
  - unfold output_gate, nullcontext.
    destruct (negb _); [apply R_redirect|]; apply keeps_gated_body; auto.
Qed.

(** [heavy_path] from a state in which layer resolution is skipped: the
    provider is not among the calls that have to be tolerated, and
    [layers] not among the attributes. *)
Lemma keeps_heavy_path_without_layers (st : State W) :
  (forall m, loggable (EvImport m)) ->
  loggable (EvInitProcessGroup "nccl") -> loggable EvCudaIsAvailable ->
  (forall a, loggable (EvArgsToUuid a)) ->
  (forall a, loggable (EvTrain a)) -> (forall a, loggable (EvExtract a)) ->
  (forall a, loggable (EvEvaluate a)) ->
  loggable EvIsInitialized -> loggable EvBarrier ->
  assignable "device" -> assignable "name" ->
  resolve_layers (log_event (EvImport "transformers") st) =
    (Return tt, log_event (EvImport "transformers") st) ->
  R st (snd (heavy_path st)).
Proof.
  intros L1 L2 L3 L4 L5 L6 L7 L8 L9 A1 A2 Hskip.
  set (s0 := log_event (EvImport "transformers") st) in *.
  assert (K : keeps R
    (bind (bind (import_ "torch.distributed")
             (fun _ => bind init_distributed
                (fun r => bind (resolve_device r) (fun _ => ret r))))
          (fun r => output_gate r (gated_body r)))).
  { apply keeps_bind.
    - apply keeps_bind; [apply keeps_import; auto|intros _].
      apply keeps_bind; [apply keeps_init_distributed; auto|intros r].
      apply keeps_bind; [apply keeps_resolve_device; auto|intros _].
      apply keeps_ret.
    - intros r. unfold output_gate, nullcontext.
      destruct (negb _); [apply R_redirect|]; apply keeps_gated_body; auto. }
  specialize (K s0).
  apply R_trans with s0; [apply R_log; auto|].
  replace (heavy_path st) with
    (bind (bind (import_ "torch.distributed")
             (fun _ => bind init_distributed
                (fun r => bind (resolve_device r) (fun _ => ret r))))
          (fun r => output_gate r (gated_body r)) s0); [exact K|].
  symmetry. unfold heavy_path, startup.
  rewrite bind_assoc. unfold bind at 1. unfold import_ at 1. fold s0.
  rewrite bind_assoc. unfold bind at 1. rewrite Hskip. reflexivity.
Qed.

End Frame.

(** ** Instances of the frame *)

Lemma run_keeps_stdout : keeps same_stdout run.
Proof.
  apply keeps_run with (loggable := fun _ => True) (assignable := fun _ => True);
    unfold same_stdout; auto.
  - intros a b c H1 H2. congruence.
  - intros line st. unfold print. destruct (sys_stdout st) eqn:E; simpl; auto.
  - intros o body _ st. unfold redirect_stdout.
    destruct (body (set_stdout o st)). reflexivity.
Qed.

Lemma run_keeps_other_attrs :
  keeps (same_attrs_except ["layers"; "device"; "name"]) run.
Proof.
  apply keeps_run
    with (loggable := fun _ => True)
         (assignable := fun k => In k ["layers"; "device"; "name"]);
    unfold same_attrs_except; simpl; auto.
  - intros a b c H1 H2 k Hk. rewrite H2, H1; auto.
  - intros k v st Hk k' Hk'. apply getattr_setattr_other. intros ->. tauto.
  - intros line st k Hk. unfold print. destruct (sys_stdout st); reflexivity.
  - intros o body Hb st k Hk. unfold redirect_stdout.
    specialize (Hb (set_stdout o st) k Hk).
    destruct (body (set_stdout o st)). exact Hb.
Qed.

Lemma same_output_refl (st : State W) : same_output st st.
Proof. repeat split. Qed.

Lemma same_output_trans (a b c : State W) :
  same_output a b -> same_output b c -> same_output a c.
Proof. unfold same_output. intuition congruence. Qed.

Lemma startup_keeps_output : keeps same_output startup.
Proof.
  apply keeps_startup with (loggable := fun _ => True) (assignable := fun _ => True);
    first [ exact same_output_refl | exact same_output_trans
          | intros; exact I | intros; repeat split ].
Qed.

Lemma dispatch_keeps_output : keeps same_output dispatch.
Proof.
  apply keeps_dispatch with (loggable := fun _ => True) (assignable := fun _ => True);
    first [ exact same_output_refl | exact same_output_trans
          | intros; exact I | intros; repeat split ].
Qed.

Lemma startup_keeps_environ : keeps same_environ startup.
Proof.
  apply keeps_startup with (loggable := fun _ => True) (assignable := fun _ => True);
    unfold same_environ; auto; intros; congruence.
Qed.

Lemma resolve_layers_keeps_environ : keeps same_environ resolve_layers.
Proof.
  apply keeps_resolve_layers
    with (loggable := fun _ => True) (assignable := fun _ => True);
    unfold same_environ; auto; intros; congruence.
Qed.

(** The rank [startup] returns is the one the launcher put in the
    environment, and zero when there is none. *)
Lemma startup_rank (st st1 : State W) (r : Z) :
  startup st = (Return r, st1) ->
  match environ_LOCAL_RANK st with
  | Some s => int_of_str s = Some r
  | None => r = 0
  end.
Proof.
  unfold startup. unfold bind at 1. unfold import_ at 1.
  unfold bind at 1.
  pose proof (resolve_layers_keeps_environ
                (log_event (EvImport "transformers") st)) as K.
  unfold same_environ in K. simpl in K.
  destruct (resolve_layers _) as [[[]|e] s1]; [|discriminate].
  simpl in K. unfold bind at 1. unfold import_ at 1.
  unfold bind at 1. unfold init_distributed.
  simpl. rewrite K.
  destruct (environ_LOCAL_RANK st) as [s|].
  - unfold bind at 1. destruct (call _ _ _) as [[[]|e] s2]; [|discriminate].
    destruct (int_of_str s) as [z|]; [|discriminate].
    unfold ret at 1. unfold bind.
    destruct (resolve_device z s2) as [[[]|e] s3]; [|discriminate].
    unfold ret. congruence.
  - unfold bind.
    destruct (resolve_device 0 _) as [[[]|e] s3]; [|discriminate].
    unfold ret. congruence.
Qed.

(** ** A run without a model *)

(** C10: when the namespace has no [model] attribute, or one that is
    [None] or empty, lines 67-78 are skipped altogether: layer resolution
    returns normally and changes nothing, whatever [layers] and
    [layer_stride] hold; and in the whole of [run] the model-config
    provider is not called and [layers] is left as configured. *)
Theorem no_model_skips_layer_resolution (st : State W) :
  match getattr (args st) "model" with
  | Some m => truthy m = false
  | None => True
  end ->
  resolve_layers st = (Return tt, st)
  /\ count is_from_pretrained (trace (snd (run st))) =
       count is_from_pretrained (trace st)
  /\ getattr (args (snd (run st))) "layers" = getattr (args st) "layers".
Proof.
  intros H. split; [exact (resolve_layers_skipped st H)|].
  change (provider_and_layers_untouched st (snd (run st))).
  unfold run. unfold bind at 1. unfold attr at 1.
  destruct (getattr (args st) "command") as [c|]; [|split; reflexivity].
  destruct (value_eqb c (VStr "list")).
  - unfold bind, get_args, call.
    destruct (list_runs (args st) (world st)) as [r w].
    unfold provider_and_layers_untouched. simpl.
    rewrite count_app. unfold count at 2. simpl. split; [lia|reflexivity].
  - apply keeps_heavy_path_without_layers
      with (loggable := fun e => is_from_pretrained e = false)
           (assignable := fun k => k <> "layers");
      try reflexivity; try discriminate;
      unfold provider_and_layers_untouched.
    + intros s. split; reflexivity.
    + intros a b c' [H1 H2] [H3 H4]. split; congruence.
    + intros e s He. simpl. rewrite count_app. unfold count at 2. simpl.
      rewrite He. simpl. split; [lia|reflexivity].
    + intros w s. split; reflexivity.
    + intros k v s Hk. simpl. split; [reflexivity|].
      apply getattr_setattr_other. congruence.
    + intros line s. unfold print. destruct (sys_stdout s); split; reflexivity.
    + intros l s. split; reflexivity.
    + intros o body Hb s. unfold redirect_stdout.
      specialize (Hb (set_stdout o s)).
      destruct (body (set_stdout o s)) as [r sb]. exact Hb.
    + apply resolve_layers_skipped. exact H.
Qed.

(** ** The [list] shortcut *)

(** C6: on the [list] command [run] calls [list_runs] and returns.  The
    trace is extended by that one call: nothing is imported, the
    model-config provider is not asked, no process group is created, the
    accelerator is not probed; the namespace (its layers and device
    included), the standard output and the logger are untouched. *)
Theorem list_returns_before_initialization (st : State W) (c : value) :
  getattr (args st) "command" = Some c ->
  value_eqb c (VStr "list") = true ->
  run st =
    (fst (list_runs (args st) (world st)),
     set_world (snd (list_runs (args st) (world st)))
               (log_event (EvListRuns (args st)) st))
  /\ trace (snd (run st)) = (trace st ++ [EvListRuns (args st)])%list
  /\ args (snd (run st)) = args st
  /\ same_output st (snd (run st)).
Proof.
  intros Hc Hl.
  assert (E : run st =
    (fst (list_runs (args st) (world st)),
     set_world (snd (list_runs (args st) (world st)))
               (log_event (EvListRuns (args st)) st))).
  { unfold run. run_m. rewrite Hc. run_m. rewrite Hl.
    destruct (list_runs (args st) (world st)). reflexivity. }
  rewrite E. repeat split.
Qed.

(** ** The namespace after [run] *)

(** C7, as amended: [run] assigns attributes of the parsed namespace, but
    only [layers], [device] and [name]; every other attribute reads the
    same after [run] as before it, whether [run] returns or raises. *)
Theorem run_assigns_only_layers_device_name (st : State W) (k : string) :
  k <> "layers" -> k <> "device" -> k <> "name" ->
  getattr (args (snd (run st))) k = getattr (args st) k.
Proof.
  intros H1 H2 H3. apply run_keeps_other_attrs. simpl. intuition congruence.
Qed.

(** ** The output gate *)

Lemma print_keys_discarded (ks : list string) (st : State W) :
  sys_stdout st = None ->
  (forall k, In k ks -> In k (keys (args st))) ->
  print_keys ks st = (Return tt, st).
Proof.
  intros Hn. induction ks as [|k rest IH]; intros Hk; [reflexivity|].
  simpl. run_m.
  destruct (@getattr_of_key (args st) k) as [v Hv]; [apply Hk; now left|].
  rewrite Hv. unfold print. run_m. rewrite Hn.
  apply IH. intros k' Hk'. apply Hk. now right.
Qed.

Lemma print_keys_written (ks : list string) (h : Handle) (st : State W) :
  sys_stdout st = Some h ->
  (forall k, In k ks -> In k (keys (args st))) ->
  print_keys ks st =
    (Return tt,
     set_printed
       (printed st ++
        map (fun k => (h, k ++ ": " ++
               py_str (match getattr (args st) k with
                       | Some v => v | None => VNone end))) ks) st).
Proof.
  revert st. induction ks as [|k rest IH]; intros st Hs Hk.
  - simpl. unfold ret, set_printed. rewrite app_nil_r. now destruct st.
  - simpl. run_m.
    destruct (@getattr_of_key (args st) k) as [v Hv]; [apply Hk; now left|].
    rewrite Hv. unfold print. run_m. rewrite Hs.
    rewrite IH; simpl; auto.
    + unfold set_printed. simpl. rewrite <- app_assoc. reflexivity.
    + intros k' Hk'. apply Hk. now right.
Qed.

Lemma echo_args_discarded (st : State W) :
  sys_stdout st = None -> echo_args st = (Return tt, st).
Proof.
  intros Hn. unfold echo_args. run_m. apply print_keys_discarded; auto.
Qed.

Lemma echo_args_written (h : Handle) (st : State W) :
  sys_stdout st = Some h ->
  echo_args st =
    (Return tt, set_printed (printed st ++ echo_lines h (args st)) st).
Proof.
  intros Hs. unfold echo_args. run_m. apply print_keys_written; auto.
Qed.

(** The body of the [with] block on a rank other than zero, entered with
    the standard output discarded: the logger is silenced, then the command
    is dispatched. *)
Lemma gated_body_nonroot_eq (r : Z) (st : State W) :
  r <> 0 -> sys_stdout st = None ->
  gated_body r st =
  dispatch (log_event (EvImport "elk.training.train")
              (log_event (EvImport "elk.extraction.extraction_main")
                 (set_level logging_ERROR st))).
Proof.
  intros Hr Hn. unfold gated_body.
  unfold bind at 1. rewrite (echo_args_discarded st Hn).
  apply Z.eqb_neq in Hr. rewrite Hr. reflexivity.
Qed.

(** The body of the [with] block on rank zero: the arguments are echoed,
    then the command is dispatched. *)
Lemma gated_body_root_eq (st : State W) :
  gated_body 0 st =
  dispatch (log_event (EvImport "elk.training.train")
              (log_event (EvImport "elk.extraction.extraction_main")
                 (match sys_stdout st with
                  | Some h =>
                      set_printed (printed st ++ echo_lines h (args st)) st
                  | None => st
                  end))).
Proof.
  unfold gated_body. unfold bind at 1.
  destruct (sys_stdout st) as [h|] eqn:Hs.
  - rewrite (echo_args_written st Hs). reflexivity.
  - rewrite (echo_args_discarded st Hs). reflexivity.
Qed.

Lemma gated_body_nonroot (r : Z) (st : State W) :
  r <> 0 -> sys_stdout st = None ->
  sys_stdout (snd (gated_body r st)) = None
  /\ printed (snd (gated_body r st)) = printed st
  /\ transformers_level (snd (gated_body r st)) = logging_ERROR.
Proof.
  intros Hr Hn. rewrite (gated_body_nonroot_eq st Hr Hn).
  match goal with |- context [dispatch ?s] =>
    destruct (dispatch_keeps_output s) as (H1 & H2 & H3)
  end.
  simpl in *. repeat split; congruence.
Qed.

Lemma gated_body_root (st : State W) :
  sys_stdout (snd (gated_body 0 st)) = sys_stdout st
  /\ printed (snd (gated_body 0 st)) =
       (printed st ++ match sys_stdout st with
                      | Some h => echo_lines h (args st)
                      | None => []
                      end)%list
  /\ transformers_level (snd (gated_body 0 st)) = transformers_level st.
Proof.
  rewrite gated_body_root_eq.
  match goal with |- context [dispatch ?s] =>
    destruct (dispatch_keeps_output s) as (H1 & H2 & H3)
  end.
  destruct (sys_stdout st) as [h|] eqn:Hs; simpl in *;
    rewrite ?app_nil_r; repeat split; congruence.
Qed.

(** After the [list] test and a [startup] that returned, [run] is the
    gated body. *)
Lemma run_after_startup (st st1 : State W) (c : value) (r : Z) :
  getattr (args st) "command" = Some c ->
  value_eqb c (VStr "list") = false ->
  startup st = (Return r, st1) ->
  run st = output_gate r (gated_body r) st1.
Proof.
  intros Hc Hl Hs. unfold run. unfold bind at 1. unfold attr at 1.
  rewrite Hc, Hl. unfold heavy_path. unfold bind at 1. rewrite Hs.
  reflexivity.
Qed.

(** C8: a run that got its rank from [startup] and enters the [with]
    block.  The rank is the one of the environment.  Whatever the rank and
    whether the block returns or raises, [sys.stdout] is at the end what it
    was at the start.  On a rank other than zero the block runs with
    [sys.stdout] set to [None] from its first to its last step, nothing is
    written, and the level of the transformers logger is [ERROR] when [run]
    ends: it is not put back.  On rank zero the block runs on the
    unchanged [sys.stdout], the [key: value] lines of the namespace are
    written to it in order, and the logger level is not touched. *)
Theorem output_gate_scopes_stdout (st st1 : State W) (c : value) (r : Z) :
  getattr (args st) "command" = Some c ->
  value_eqb c (VStr "list") = false ->
  startup st = (Return r, st1) ->
  match environ_LOCAL_RANK st with
  | Some s => int_of_str s = Some r
  | None => r = 0
  end
  /\ sys_stdout (snd (run st)) = sys_stdout st
  /\ (r <> 0 ->
      run st = redirect_stdout None (gated_body r) st1
      /\ (exists sb,
            gated_body r (set_stdout None st1) = (fst (run st), sb)
            /\ sys_stdout sb = None
            /\ snd (run st) = set_stdout (sys_stdout st) sb)
      /\ printed (snd (run st)) = printed st
      /\ transformers_level (snd (run st)) = logging_ERROR)
  /\ (r = 0 ->
      run st = gated_body 0 st1
      /\ printed (snd (run st)) =
           (printed st ++ match sys_stdout st with
                          | Some h => echo_lines h (args st1)
                          | None => []
                          end)%list
      /\ transformers_level (snd (run st)) = transformers_level st).
Proof.
  intros Hc Hl Hs.
  pose proof (startup_keeps_output st) as K. rewrite Hs in K.
  destruct K as (K1 & K2 & K3). simpl in K1, K2, K3.
  split; [exact (startup_rank st Hs)|].
  split; [apply run_keeps_stdout|].
  pose proof (run_after_startup st Hc Hl Hs) as E. unfold output_gate in E.
  split.
  - intros Hr. pose proof Hr as Hr'. apply Z.eqb_neq in Hr'.
    rewrite Hr' in E. cbv beta iota delta [negb] in E.
    split; [exact E|]. rewrite E. clear E.
    unfold redirect_stdout. cbv beta zeta.
    destruct (@gated_body_nonroot r (set_stdout None st1) Hr eq_refl)
      as (G1 & G2 & G3).
    destruct (gated_body r (set_stdout None st1)) as [res sb].
    simpl in *. rewrite K1. repeat split; try congruence.
    exists sb. repeat split. exact G1.
  - intros ->. simpl in E. unfold nullcontext in E. split; [exact E|].
    rewrite E. destruct (gated_body_root st1) as (G1 & G2 & G3).
    rewrite G2, G3, K1, K2, K3. split; reflexivity.
Qed.

(** ** The elicit fallback *)


Lemma dispatch_elicit (st : State W) :
  getattr (args st) "command" = Some (VStr "elicit") ->
  dispatch st = elicit st.
Proof.
  intros Hc. unfold dispatch. run_m. rewrite Hc. simpl.
  rewrite Hc. simpl. rewrite Hc. reflexivity.
Qed.

Lemma elicit_first_train (st : State W) (u : value) (w1 w2 : W)
    (r : Outcome unit) :
  args_to_uuid (args st) (world st) = (Return u, w1) ->
  train (setattr (args st) "name" u) w1 = (r, w2) ->
  elicit st =
  match r with
  | Return tt => (Return tt, after_first_train st u w2)
  | Raise e =>
      if is_missing_input e then elicit_fallback (after_first_train st u w2)
      else (Raise e, after_first_train st u w2)
  end.
Proof.
  intros Hu Ht. unfold elicit, after_first_train.
  unfold bind at 1. unfold get_args at 1.
  unfold bind at 1. unfold call at 1. rewrite Hu.
  unfold bind at 1. unfold assign at 1.
  unfold try_missing_input. unfold bind at 1. unfold get_args at 1.
  unfold call at 1. simpl. rewrite Ht.
  unfold set_world, log_event, set_args. simpl. rewrite <- app_assoc. simpl.
  destruct r as [[]|e]; reflexivity.
Qed.

(** C2: in the elicit branch, when the first [train] raises anything but
    [EOFError] or [FileNotFoundError], that exception leaves [dispatch] as
    it is, and the trace ends with that [train]: no [run_extraction], no
    barrier, no second [train]. *)
Theorem other_train_errors_propagate (st : State W) (u : value) (w1 w2 : W)
    (e : exn) :
  getattr (args st) "command" = Some (VStr "elicit") ->
  args_to_uuid (args st) (world st) = (Return u, w1) ->
  train (setattr (args st) "name" u) w1 = (Raise e, w2) ->
  is_missing_input e = false ->
  fst (dispatch st) = Raise e
  /\ world (snd (dispatch st)) = w2
  /\ trace (snd (dispatch st)) =
       (trace st ++ [EvArgsToUuid (args st);
                     EvTrain (setattr (args st) "name" u)])%list
  /\ count is_train (trace (snd (dispatch st))) =
       (count is_train (trace st) + 1)%nat
  /\ count is_extract (trace (snd (dispatch st))) = count is_extract (trace st)
  /\ count is_barrier (trace (snd (dispatch st))) = count is_barrier (trace st).
Proof.
  intros Hc Hu Ht He.
  rewrite (dispatch_elicit st Hc), (elicit_first_train st Hu Ht), He.
  unfold after_first_train. simpl. rewrite !count_app.
  unfold count. simpl. repeat split; lia.
Qed.

(** C1, as amended: in the elicit branch, when the first [train] raises
    [EOFError] or [FileNotFoundError] and then [run_extraction] and the
    barrier (if a group is initialized) return normally, [train] is called
    exactly twice and [run_extraction] exactly once; the outcome of
    [dispatch] is the outcome of the second [train], whatever it is, a
    missing-input exception included, and nothing is called after it.
    When [run_extraction] or the barrier raises, that exception is the
    outcome and [train] has been called once. *)
Theorem fallback_trains_twice_extracts_once (st : State W) (u : value)
    (w1 w2 : W) (e : exn) :
  getattr (args st) "command" = Some (VStr "elicit") ->
  args_to_uuid (args st) (world st) = (Return u, w1) ->
  train (setattr (args st) "name" u) w1 = (Raise e, w2) ->
  is_missing_input e = true ->
  let a1 := setattr (args st) "name" u in
  (forall w3,
     run_extraction a1 w2 = (Return tt, w3) ->
     (dist_is_initialized w3 = true -> fst (dist_barrier w3) = Return tt) ->
     let w4 := if dist_is_initialized w3 then snd (dist_barrier w3) else w3 in
     fst (dispatch st) = fst (train a1 w4)
     /\ world (snd (dispatch st)) = snd (train a1 w4)
     /\ trace (snd (dispatch st)) =
          (trace st
           ++ [EvArgsToUuid (args st); EvTrain a1; EvExtract a1;
               EvIsInitialized]
           ++ (if dist_is_initialized w3 then [EvBarrier] else [])
           ++ [EvTrain a1])%list
     /\ count is_train (trace (snd (dispatch st))) =
          (count is_train (trace st) + 2)%nat
     /\ count is_extract (trace (snd (dispatch st))) =
          (count is_extract (trace st) + 1)%nat)
  /\ (forall ex w3,
       run_extraction a1 w2 = (Raise ex, w3) ->
       fst (dispatch st) = Raise ex
       /\ count is_train (trace (snd (dispatch st))) =
            (count is_train (trace st) + 1)%nat
       /\ count is_extract (trace (snd (dispatch st))) =
            (count is_extract (trace st) + 1)%nat)
  /\ (forall w3 eb wb,
       run_extraction a1 w2 = (Return tt, w3) ->
       dist_is_initialized w3 = true ->
       dist_barrier w3 = (Raise eb, wb) ->
       fst (dispatch st) = Raise eb
       /\ count is_train (trace (snd (dispatch st))) =
            (count is_train (trace st) + 1)%nat
       /\ count is_extract (trace (snd (dispatch st))) =
            (count is_extract (trace st) + 1)%nat).
Proof.
  intros Hc Hu Ht He a1. subst a1.
  rewrite (dispatch_elicit st Hc), (elicit_first_train st Hu Ht), He.
  unfold elicit_fallback, after_first_train. run_m.
  split; [|split].
  - intros w3 Hx Hb. rewrite Hx. run_m.
    destruct (dist_is_initialized w3) eqn:Hi; run_m.
    + specialize (Hb eq_refl).
      destruct (dist_barrier w3) as [[[]|eb] wb]; [|discriminate]. run_m.
      destruct (train _ wb) as [r w5]. simpl.
      rewrite <- !app_assoc. simpl. rewrite !count_app.
      unfold count. simpl. repeat split; lia.
    + destruct (train _ w3) as [r w5]. simpl.
      rewrite <- !app_assoc. simpl. rewrite !count_app.
      unfold count. simpl. repeat split; lia.
  - intros ex w3 Hx. rewrite Hx. run_m.
    rewrite <- !app_assoc. simpl. rewrite !count_app.
    unfold count. simpl. repeat split; lia.
  - intros w3 eb wb Hx Hi Hb. rewrite Hx. run_m. rewrite Hi. run_m.
    rewrite Hb. run_m.
    rewrite <- !app_assoc. simpl. rewrite !count_app.
    unfold count. simpl. repeat split; lia.
Qed.

(** C3: in the handler of the elicit branch, once [run_extraction] has
    returned: when [dist.is_initialized()] holds, [dist.barrier()] is
    called right after it and the second [train] is called only after the
    barrier has returned (a barrier that raises ends the run); when it does
    not hold, no barrier is called and the second [train] starts from the
    world [run_extraction] left. *)
Theorem barrier_between_extract_and_second_train (st : State W) (u : value)
    (w1 w2 w3 : W) (e : exn) :
  getattr (args st) "command" = Some (VStr "elicit") ->
  args_to_uuid (args st) (world st) = (Return u, w1) ->
  train (setattr (args st) "name" u) w1 = (Raise e, w2) ->
  is_missing_input e = true ->
  run_extraction (setattr (args st) "name" u) w2 = (Return tt, w3) ->
  let a1 := setattr (args st) "name" u in
  let before :=
    (trace st ++ [EvArgsToUuid (args st); EvTrain a1; EvExtract a1;
                  EvIsInitialized])%list in
  (dist_is_initialized w3 = true ->
     (forall wb, dist_barrier w3 = (Return tt, wb) ->
        trace (snd (dispatch st)) = (before ++ [EvBarrier; EvTrain a1])%list
        /\ fst (dispatch st) = fst (train a1 wb)
        /\ world (snd (dispatch st)) = snd (train a1 wb))
     /\ (forall eb wb, dist_barrier w3 = (Raise eb, wb) ->
        trace (snd (dispatch st)) = (before ++ [EvBarrier])%list
        /\ fst (dispatch st) = Raise eb))
  /\ (dist_is_initialized w3 = false ->
        trace (snd (dispatch st)) = (before ++ [EvTrain a1])%list
        /\ fst (dispatch st) = fst (train a1 w3)
        /\ world (snd (dispatch st)) = snd (train a1 w3)).
Proof.
  intros Hc Hu Ht He Hx a1 before. subst a1 before.
  rewrite (dispatch_elicit st Hc), (elicit_first_train st Hu Ht), He.
  unfold elicit_fallback, after_first_train. run_m. rewrite Hx. run_m.
  split; intros Hi; rewrite Hi; run_m.
  - split.
    + intros wb Hb. rewrite Hb. run_m.
      destruct (train _ wb) as [r w5]. simpl.
      rewrite <- !app_assoc. simpl. repeat split.
    + intros eb wb Hb. rewrite Hb. run_m.
      rewrite <- !app_assoc. simpl. repeat split.
  - destruct (train _ w3) as [r w5]. simpl.
    rewrite <- !app_assoc. simpl. repeat split.
Qed.

(** C9: in the elicit branch [args_to_uuid] is called once, and it is the
    first call of the branch.  When it returns [u], [u] is assigned to
    [args.name], the next call is the first [train], and every [train] and
    every [run_extraction] of the branch gets the same namespace, whose
    [name] is [u]; the namespace is still that one when the branch ends. *)
Theorem identity_computed_once (st : State W) :
  getattr (args st) "command" = Some (VStr "elicit") ->
  exists rest,
    trace (snd (dispatch st)) =
      (trace st ++ EvArgsToUuid (args st) :: rest)%list
    /\ count is_uuid rest = 0%nat
    /\ (forall u w1,
          args_to_uuid (args st) (world st) = (Return u, w1) ->
          getattr (setattr (args st) "name" u) "name" = Some u
          /\ args (snd (dispatch st)) = setattr (args st) "name" u
          /\ (exists more, rest = EvTrain (setattr (args st) "name" u) :: more)
          /\ Forall (addressed_at (setattr (args st) "name" u)) rest).
Proof.
  intros Hc. rewrite (dispatch_elicit st Hc).
  destruct (args_to_uuid (args st) (world st)) as [[u|e0] w1] eqn:Hu.
  - destruct (train (setattr (args st) "name" u) w1) as [r1 w2] eqn:Ht.
    rewrite (elicit_first_train st Hu Ht).
    assert (Hdone : forall (r : Outcome unit),
      exists rest,
        trace (snd (r, after_first_train st u w2)) =
          (trace st ++ EvArgsToUuid (args st) :: rest)%list
        /\ count is_uuid rest = 0%nat
        /\ (forall u' w1',
              (Return u, w1) = (Return u', w1') ->
              getattr (setattr (args st) "name" u') "name" = Some u'
              /\ args (snd (r, after_first_train st u w2)) =
                   setattr (args st) "name" u'
              /\ (exists more,
                   rest = EvTrain (setattr (args st) "name" u') :: more)
              /\ Forall (addressed_at (setattr (args st) "name" u')) rest)).
    { intros r. exists [EvTrain (setattr (args st) "name" u)].
      simpl. split; [reflexivity|]. split; [reflexivity|].
      intros u' w1' E. injection E as <- <-.
      repeat split; eauto using getattr_setattr_same.
      repeat constructor. }
    destruct r1 as [[]|e1]; [apply Hdone|].
    destruct (is_missing_input e1); [|apply Hdone].
    unfold elicit_fallback, after_first_train. run_m.
    destruct (run_extraction _ w2) as [[[]|e2] w3]; run_m.
    + destruct (dist_is_initialized w3); run_m.
      * destruct (dist_barrier w3) as [[[]|e3] w4]; run_m.
        -- destruct (train _ w4) as [r4 w5]. simpl.
           eexists. rewrite <- !app_assoc. simpl.
           split; [reflexivity|]. split; [reflexivity|].
           intros u' w1' E. injection E as <- <-.
           repeat split; eauto using getattr_setattr_same.
           repeat constructor.
        -- eexists. rewrite <- !app_assoc. simpl.
           split; [reflexivity|]. split; [reflexivity|].
           intros u' w1' E. injection E as <- <-.
           repeat split; eauto using getattr_setattr_same.
           repeat constructor.
      * destruct (train _ w3) as [r4 w5]. simpl.
        eexists. rewrite <- !app_assoc. simpl.
        split; [reflexivity|]. split; [reflexivity|].
        intros u' w1' E. injection E as <- <-.
        repeat split; eauto using getattr_setattr_same.
        repeat constructor.
    + eexists. rewrite <- !app_assoc. simpl.
      split; [reflexivity|]. split; [reflexivity|].
      intros u' w1' E. injection E as <- <-.
      repeat split; eauto using getattr_setattr_same.
      repeat constructor.
  - exists []. unfold elicit. run_m. rewrite Hu. simpl.
    split; [reflexivity|]. split; [reflexivity|].
    intros u w1' E. discriminate.
Qed.

(** [run] and [dispatch]: once [startup] has returned, [run] ends as the
    dispatch does, from a state that has the namespace and the world
    [startup] left. *)
Lemma run_reaches_dispatch (st st1 : State W) (c : value) (r : Z) :
  getattr (args st) "command" = Some c ->
  value_eqb c (VStr "list") = false ->
  startup st = (Return r, st1) ->
  exists s,
    args s = args st1 /\ world s = world st1
    /\ trace s = (trace st1 ++ [EvImport "elk.extraction.extraction_main";
                                EvImport "elk.training.train"])%list
    /\ fst (run st) = fst (dispatch s)
    /\ trace (snd (run st)) = trace (snd (dispatch s))
    /\ world (snd (run st)) = world (snd (dispatch s))
    /\ args (snd (run st)) = args (snd (dispatch s)).
Proof.
  intros Hc Hl Hs. rewrite (run_after_startup st Hc Hl Hs).
  unfold output_gate. destruct (r =? 0) eqn:Hr; cbv beta iota delta [negb].
  - apply Z.eqb_eq in Hr. subst r. unfold nullcontext.
    rewrite gated_body_root_eq.
    match goal with |- context [dispatch ?s] => exists s end.
    destruct (sys_stdout st1); simpl; rewrite <- app_assoc; repeat split.
  - apply Z.eqb_neq in Hr. unfold redirect_stdout. cbv beta zeta.
    rewrite (@gated_body_nonroot_eq r (set_stdout None st1) Hr eq_refl).
    match goal with |- context [dispatch ?s] => exists s end.
    destruct (dispatch _) as [res sb].
    simpl. rewrite <- app_assoc. repeat split.
Qed.

End Properties.

(** * The properties on the concrete collaborators *)

Import Fixture.

(** ** Elicit *)

(** C1, the claim as stated fails: on a full disk the first [train] of
    [elk elicit] raises [FileNotFoundError], [run_extraction] raises, and
    [train] has been called once, not twice. *)
Lemma failed_extraction_leaves_one_train :
  fst (train (setattr (setattr elicit_args "device" (VStr "cpu"))
                      "name" (VStr "run-0")) full_disk_world)
    = Raise FileNotFoundError
  /\ fst (run (start full_disk_world elicit_args None))
       = Raise (OtherError "IOFailure")
  /\ count is_extract (trace (snd (run (start full_disk_world elicit_args None))))
       = 1%nat
  /\ ~ count is_train (trace (snd (run (start full_disk_world elicit_args None))))
       = 2%nat.
Proof.
  repeat split; try reflexivity. vm_compute. discriminate.
Qed.

Lemma fallback_trains_twice_extracts_once_witness :
  (fst (dispatch (start fresh_world elicit_args None)) = Return tt
   /\ count is_train (trace (snd (dispatch (start fresh_world elicit_args None))))
        = 2%nat
   /\ count is_extract (trace (snd (dispatch (start fresh_world elicit_args None))))
        = 1%nat)
  /\ (fst (dispatch (start full_disk_world elicit_args None))
        = Raise (OtherError "IOFailure")
      /\ count is_train
           (trace (snd (dispatch (start full_disk_world elicit_args None))))
         = 1%nat)
  /\ (fst (dispatch (start broken_group_world elicit_args None))
        = Raise (OtherError "RuntimeError")
      /\ count is_train
           (trace (snd (dispatch (start broken_group_world elicit_args None))))
         = 1%nat).
Proof.
  split; [|split].
  - destruct (@fallback_trains_twice_extracts_once World collaborators
                (start fresh_world elicit_args None) (VStr "run-0")
                fresh_world fresh_world FileNotFoundError
                eq_refl eq_refl eq_refl eq_refl) as [H _].
    destruct (H (filled fresh_world) eq_refl) as (H0 & _ & _ & H1 & H2).
    + simpl. discriminate.
    + split; [exact H0 | split; [exact H1 | exact H2]].
  - destruct (@fallback_trains_twice_extracts_once World collaborators
                (start full_disk_world elicit_args None) (VStr "run-0")
                full_disk_world full_disk_world FileNotFoundError
                eq_refl eq_refl eq_refl eq_refl) as (_ & H & _).
    destruct (H (OtherError "IOFailure") full_disk_world eq_refl)
      as (H0 & H1 & _).
    split; [exact H0 | exact H1].
  - destruct (@fallback_trains_twice_extracts_once World collaborators
                (start broken_group_world elicit_args None) (VStr "run-0")
                broken_group_world broken_group_world FileNotFoundError
                eq_refl eq_refl eq_refl eq_refl) as (_ & _ & H).
    destruct (H (filled broken_group_world) (OtherError "RuntimeError")
                (filled broken_group_world) eq_refl eq_refl eq_refl)
      as (H0 & H1 & _).
    split; [exact H0 | exact H1].
Defined.

Lemma other_train_errors_propagate_witness :
  fst (dispatch (start corrupt_world elicit_args None))
    = Raise (OtherError "UnpicklingError")
  /\ count is_extract (trace (snd (dispatch (start corrupt_world elicit_args None))))
       = 0%nat.
Proof.
  destruct (@other_train_errors_propagate World collaborators
              (start corrupt_world elicit_args None) (VStr "run-0")
              corrupt_world corrupt_world (OtherError "UnpicklingError"))
    as (H0 & _ & _ & _ & H1 & _).
  - reflexivity.
  - reflexivity.
  - reflexivity.
  - reflexivity.
  - split; [exact H0 | exact H1].
Defined.

Lemma barrier_between_extract_and_second_train_witness :
  (trace (snd (dispatch (start group_world elicit_args None)))
     = let a1 := setattr elicit_args "name" (VStr "run-0") in
       [EvArgsToUuid elicit_args; EvTrain a1; EvExtract a1; EvIsInitialized;
        EvBarrier; EvTrain a1])
  /\ (trace (snd (dispatch (start broken_group_world elicit_args None)))
     = let a1 := setattr elicit_args "name" (VStr "run-0") in
       [EvArgsToUuid elicit_args; EvTrain a1; EvExtract a1; EvIsInitialized;
        EvBarrier])
  /\ (trace (snd (dispatch (start fresh_world elicit_args None)))
     = let a1 := setattr elicit_args "name" (VStr "run-0") in
       [EvArgsToUuid elicit_args; EvTrain a1; EvExtract a1; EvIsInitialized;
        EvTrain a1]).
Proof.
  split; [|split].
  - destruct (@barrier_between_extract_and_second_train World collaborators
                (start group_world elicit_args None) (VStr "run-0")
                group_world group_world (filled group_world)
                FileNotFoundError eq_refl eq_refl eq_refl eq_refl eq_refl)
      as [H _].
    destruct (H eq_refl) as [H1 _].
    destruct (H1 (filled group_world) eq_refl) as [T _]. exact T.
  - destruct (@barrier_between_extract_and_second_train World collaborators
                (start broken_group_world elicit_args None) (VStr "run-0")
                broken_group_world broken_group_world
                (filled broken_group_world)
                FileNotFoundError eq_refl eq_refl eq_refl eq_refl eq_refl)
      as [H _].
    destruct (H eq_refl) as [_ H2].
    destruct (H2 (OtherError "RuntimeError") (filled broken_group_world)
                 eq_refl) as [T _].
    exact T.
  - destruct (@barrier_between_extract_and_second_train World collaborators
                (start fresh_world elicit_args None) (VStr "run-0")
                fresh_world fresh_world (filled fresh_world)
                FileNotFoundError eq_refl eq_refl eq_refl eq_refl eq_refl)
      as [_ H].
    destruct (H eq_refl) as [T _]. exact T.
Defined.

Lemma identity_computed_once_witness :
  exists rest,
    trace (snd (dispatch (start fresh_world elicit_args None)))
      = EvArgsToUuid elicit_args :: rest
    /\ count is_uuid rest = 0%nat
    /\ Forall (addressed_at (setattr elicit_args "name" (VStr "run-0"))) rest.
Proof.
  destruct (@identity_computed_once World collaborators
              (start fresh_world elicit_args None) eq_refl)
    as (rest & T & N & H).
  exists rest. split; [exact T|]. split; [exact N|].
  destruct (H (VStr "run-0") fresh_world eq_refl) as (_ & _ & _ & F).
  exact F.
Defined.

(** ** Layers *)

(** C4, the claim as stated fails: with [--layers 1 2 --layer-stride 2]
    the conflict is reported, but only after the model-config provider has
    been asked for the configuration of the model. *)
Lemma conflict_is_reported_after_the_query :
  ~ (fst (run (start fresh_world conflict_args None))
       = Raise (ValueError conflict_message)
     /\ count is_from_pretrained
          (trace (snd (run (start fresh_world conflict_args None)))) = 0%nat).
Proof.
  intros [_ H]. vm_compute in H. discriminate.
Qed.

Lemma conflict_raised_after_provider_query_witness :
  resolve_layers (start fresh_world conflict_args None)
    = (Raise (ValueError conflict_message),
       mkState fresh_world conflict_args None (Some 1%nat) [] 30
               [EvFromPretrained (VStr "gpt2")])
  /\ run (start fresh_world conflict_args None)
    = (Raise (ValueError conflict_message),
       mkState fresh_world conflict_args None (Some 1%nat) [] 30
               [EvImport "transformers"; EvFromPretrained (VStr "gpt2")]).
Proof.
  destruct (@conflict_raised_after_provider_query World collaborators
              (start fresh_world conflict_args None) (VStr "gpt2")
              (mkPyConfig true None (Some (VInt 12))) fresh_world 12
              (VList [1; 2]) (VInt 2) 2
              eq_refl eq_refl eq_refl eq_refl eq_refl eq_refl eq_refl eq_refl
              eq_refl)
    as [H1 H2].
  split; [exact H1 | exact (H2 (VStr "extract") eq_refl eq_refl)].
Defined.

Lemma strided_layers_resolved_witness :
  getattr (args (snd (resolve_layers (start fresh_world stride_args None))))
          "layers" = Some (VList [0; 5; 10])
  /\ Z.of_nat (List.length (multiples 12 5)) = ceil_div 12 5
  /\ args (snd (resolve_layers (start fresh_world elicit_args None)))
       = elicit_args.
Proof.
  split; [|split].
  - destruct (@strided_layers_resolved World collaborators
                (start fresh_world stride_args None) (VInt 5) 5
                eq_refl eq_refl) as [H _].
    destruct (H (VStr "gpt2") (mkPyConfig true None (Some (VInt 12)))
                fresh_world 12 (VList [])
                eq_refl eq_refl eq_refl eq_refl eq_refl eq_refl eq_refl)
      as (_ & _ & G & _).
    exact G.
  - destruct (@strided_layers_resolved World collaborators
                (start fresh_world stride_args None) (VInt 5) 5
                eq_refl eq_refl) as [H _].
    destruct (H (VStr "gpt2") (mkPyConfig true None (Some (VInt 12)))
                fresh_world 12 (VList [])
                eq_refl eq_refl eq_refl eq_refl eq_refl eq_refl eq_refl)
      as (_ & _ & _ & _ & _ & G & _).
    apply G. discriminate.
  - destruct (@strided_layers_resolved World collaborators
                (start fresh_world elicit_args None) (VInt 1) 1
                eq_refl eq_refl) as [_ H].
    exact (H ltac:(discriminate)).
Defined.

Lemma no_model_skips_layer_resolution_witness :
  resolve_layers (start fresh_world no_model_args None)
    = (Return tt, start fresh_world no_model_args None)
  /\ count is_from_pretrained
       (trace (snd (run (start fresh_world no_model_args None)))) = 0%nat
  /\ getattr (args (snd (run (start fresh_world no_model_args None)))) "layers"
       = Some (VList [1; 2]).
Proof.
  exact (@no_model_skips_layer_resolution World collaborators
           (start fresh_world no_model_args None) I).
Defined.

(** ** The [list] shortcut, the namespace, the output gate *)

Lemma list_returns_before_initialization_witness :
  trace (snd (run (start fresh_world list_args (Some "3"))))
    = [EvListRuns list_args]
  /\ args (snd (run (start fresh_world list_args (Some "3")))) = list_args.
Proof.
  destruct (@list_returns_before_initialization World collaborators
              (start fresh_world list_args (Some "3")) (VStr "list")
              eq_refl eq_refl)
    as (_ & T & A & _).
  split; [exact T | exact A].
Defined.

(** C7, the claim as stated fails: [elk elicit] without [--device] ends
    with a namespace whose [device] and [name] are not the parsed ones. *)
Lemma elicit_assigns_device_and_name :
  ~ (forall k,
       getattr (args (snd (run (start fresh_world elicit_args None)))) k
         = getattr (args (start fresh_world elicit_args None)) k).
Proof.
  intros H. specialize (H "device"). vm_compute in H. discriminate.
Qed.

Lemma run_assigns_only_layers_device_name_witness :
  getattr (args (snd (run (start fresh_world elicit_args None)))) "model"
    = Some (VStr "gpt2").
Proof.
  apply (@run_assigns_only_layers_device_name World collaborators
           (start fresh_world elicit_args None) "model");
    discriminate.
Defined.

Lemma output_gate_scopes_stdout_witness :
  (sys_stdout (snd (run (start full_disk_world elicit_args (Some "1"))))
     = Some 1%nat
   /\ printed (snd (run (start full_disk_world elicit_args (Some "1")))) = []
   /\ transformers_level
        (snd (run (start full_disk_world elicit_args (Some "1"))))
      = logging_ERROR)
  /\ (printed (snd (run (start fresh_world stride_args None)))
      = [(1%nat, "command: extract"); (1%nat, "model: gpt2");
         (1%nat, "layers: [0, 5, 10]"); (1%nat, "layer_stride: 5");
         (1%nat, "device: cpu")]
      /\ transformers_level (snd (run (start fresh_world stride_args None)))
         = 30).
Proof.
  split.
  - destruct (@output_gate_scopes_stdout World collaborators
                (start full_disk_world elicit_args (Some "1"))
                (snd (@startup World collaborators
                        (start full_disk_world elicit_args (Some "1"))))
                (VStr "elicit") 1 eq_refl eq_refl eq_refl)
      as (_ & S & H & _).
    destruct (H ltac:(discriminate)) as (_ & _ & P & L).
    split; [exact S | split; [exact P | exact L]].
  - destruct (@output_gate_scopes_stdout World collaborators
                (start fresh_world stride_args None)
                (snd (@startup World collaborators
                        (start fresh_world stride_args None)))
                (VStr "extract") 0 eq_refl eq_refl eq_refl)
      as (_ & _ & _ & H).
    destruct (H eq_refl) as (_ & P & L).
    split; [exact P | exact L].
Defined.

(** * The rest of [run] *)

(** ** The strided layers, line 78 *)

Lemma range_from_lower (stop step : Z) (fuel : nat) :
  0 < step ->
  forall i x, In x (range_from fuel i stop step) -> i <= x.
Proof.
  intros Hs. induction fuel as [|fuel IH]; intros i x; simpl; [tauto|].
  destruct (i <? stop); simpl; [|tauto].
  intros [<-|H]; [lia|]. apply IH in H. lia.
Qed.

Lemma range_from_sorted (stop step : Z) (fuel : nat) :
  0 < step ->
  forall i, StronglySorted Z.lt (range_from fuel i stop step).
Proof.
  intros Hs. induction fuel as [|fuel IH]; intros i; simpl; [constructor|].
  destruct (i <? stop); [|constructor].
  constructor; [apply IH|].
  apply Forall_forall. intros x Hx.
  apply (range_from_lower stop fuel Hs) in Hx. lia.
Qed.

(** X1: for a positive stride, [list(range(0, L, s))] is strictly
    increasing and holds exactly the multiples of [s] from [0] up to, and
    not including, [L]. *)
Theorem strided_layers_are_the_multiples_below (L s : Z) :
  0 < s ->
  StronglySorted Z.lt (py_range L s)
  /\ (forall x, In x (py_range L s) <-> 0 <= x < L /\ x mod s = 0).
Proof.
  intros Hs. split; [apply range_from_sorted; exact Hs|].
  intros x. rewrite py_range_multiples by exact Hs. split.
  - intros Hx. split.
    + pose proof (multiples_bound L Hs) as B.
      rewrite Forall_forall in B. apply B. exact Hx.
    + unfold multiples in Hx. apply in_map_iff in Hx.
      destruct Hx as [j [<- _]]. apply Z_mod_mult.
  - intros [Hb Hm]. unfold multiples. apply in_map_iff.
    exists (Z.to_nat (x / s)).
    pose proof (Z.div_mod x s ltac:(lia)) as E. rewrite Hm in E.
    assert (0 <= x / s) by (apply Z.div_pos; lia).
    split; [rewrite Z2Nat.id by lia; lia|].
    apply in_seq. split; [lia|]. simpl.
    pose proof (ceil_div_is_ceiling L Hs).
    apply Z2Nat.inj_lt; nia.
Qed.

(** X2: a stride that reaches the depth of the model selects layer [0]
    alone, and a model without layers gets the empty list. *)
Theorem stride_beyond_depth_selects_layer_zero (L s : Z) :
  0 < s ->
  (0 < L <= s -> py_range L s = [0])
  /\ (L <= 0 -> py_range L s = []).
Proof.
  intros Hs. rewrite py_range_multiples by exact Hs. unfold multiples.
  pose proof (ceil_div_is_ceiling L Hs) as B. split; intros HL.
  - replace (ceil_div L s) with 1 by nia. reflexivity.
  - replace (Z.to_nat (ceil_div L s)) with O by nia. reflexivity.
Qed.

Section MoreProperties.

Context {W : Type} {C : Collaborators W}.

Ltac open_m :=
  repeat (progress
    (unfold bind, ret, raise, get_args, attr, assign, call, query, import_,
       assert, gt_one, try_missing_input in *; simpl)).

(** A sequence that returns went through both of its parts. *)
Lemma bind_returns {A B} (m : M A) (k : A -> M B) (st st' : State W) (b : B) :
  bind m k st = (Return b, st') ->
  exists a s, m st = (Return a, s) /\ k a s = (Return b, st').
Proof.
  unfold bind. destruct (m st) as [[a|e] s]; [eauto|discriminate].
Qed.

(** ** Device resolution, lines 91-98 *)

Lemma resolve_device_cases (r : Z) (st : State W) :
  resolve_device r st =
  match getattr (args st) "device" with
  | None => (Raise (AttributeError "device"), st)
  | Some d =>
      if is_None d then
        (Return tt,
         set_args
           (setattr (args st) "device"
              (if cuda_is_available (world st) then cuda_device r
               else VStr "cpu"))
           (log_event EvCudaIsAvailable (log_event (EvImport "torch") st)))
      else (Return tt, st)
  end.
Proof.
  unfold resolve_device, cuda_device. open_m.
  destruct (getattr (args st) "device") as [d|]; [|reflexivity].
  destruct (is_None d); [|reflexivity]. open_m.
  destruct (cuda_is_available (world st)); reflexivity.
Qed.

Lemma startup_steps (st st1 : State W) (r : Z) :
  startup st = (Return r, st1) ->
  exists s1 s3,
    resolve_layers (log_event (EvImport "transformers") st) = (Return tt, s1)
    /\ init_distributed (log_event (EvImport "torch.distributed") s1)
         = (Return r, s3)
    /\ resolve_device r s3 = (Return tt, st1).
Proof.
  unfold startup. intros H.
  apply bind_returns in H. destruct H as ([] & s0 & H0 & H).
  unfold import_ in H0. injection H0 as <-.
  apply bind_returns in H. destruct H as ([] & s1 & H1 & H).
  apply bind_returns in H. destruct H as ([] & s2 & H2 & H).
  unfold import_ in H2. injection H2 as <-.
  apply bind_returns in H. destruct H as (r' & s3 & H3 & H).
  apply bind_returns in H. destruct H as ([] & s4 & H4 & H).
  unfold ret in H. injection H as <- <-.
  exists s1, s3. auto.
Qed.

(** What [startup] does before device resolution leaves [device] and the
    accelerator alone. *)
Lemma before_device_resolution (st s1 s3 : State W) (r : Z) :
  resolve_layers (log_event (EvImport "transformers") st) = (Return tt, s1) ->
  init_distributed (log_event (EvImport "torch.distributed") s1)
    = (Return r, s3) ->
  getattr (args s3) "device" = getattr (args st) "device"
  /\ count is_cuda_probe (trace s3) = count is_cuda_probe (trace st).
Proof.
  intros H1 H3.
  set (R := fun a b : State W =>
    getattr (args b) "device" = getattr (args a) "device"
    /\ count is_cuda_probe (trace b) = count is_cuda_probe (trace a)).
  assert (Rrefl : forall s, R s s) by (intros s; split; reflexivity).
  assert (Rtrans : forall a b c, R a b -> R b c -> R a c).
  { intros a b c [A1 A2] [B1 B2]. split; congruence. }
  assert (Rlog : forall e s, is_cuda_probe e = false -> R s (log_event e s)).
  { intros e s He. split; [reflexivity|]. simpl. rewrite count_app.
    unfold count at 2. simpl. rewrite He. simpl. lia. }
  assert (Rworld : forall w s, R s (set_world w s))
    by (intros w s; split; reflexivity).
  assert (Rassign : forall k v s,
    k <> "device" -> R s (set_args (setattr (args s) k v) s)).
  { intros k v s Hk. split; [|reflexivity]. simpl.
    apply getattr_setattr_other. congruence. }
  pose proof (@keeps_resolve_layers W C R
                (fun e => is_cuda_probe e = false) (fun k => k <> "device")
                Rrefl Rtrans Rlog Rworld Rassign
                ltac:(reflexivity) ltac:(discriminate)
                (log_event (EvImport "transformers") st)) as K1.
  pose proof (@keeps_init_distributed W C R
                (fun e => is_cuda_probe e = false)
                Rrefl Rtrans Rlog Rworld ltac:(reflexivity)
                (log_event (EvImport "torch.distributed") s1)) as K3.
  rewrite H1 in K1. rewrite H3 in K3. simpl in K1, K3.
  apply (Rtrans st (log_event (EvImport "transformers") st) s3).
  { apply Rlog. reflexivity. }
  apply (Rtrans _ s1 s3); [exact K1|].
  apply (Rtrans _ (log_event (EvImport "torch.distributed") s1) s3);
    [apply Rlog; reflexivity | exact K3].
Qed.

(** X3: when [startup] returns, [args.device] is set: a device given on the
    command line is kept and the accelerator is not probed for it; a device
    left as [None] becomes ["cpu"] when [torch.cuda.is_available()] is
    false and ["cuda:<local_rank>"] when it is true. *)
Theorem startup_resolves_device (st st1 : State W) (r : Z) :
  startup st = (Return r, st1) ->
  exists d0,
    getattr (args st) "device" = Some d0
    /\ getattr (args st1) "device" =
         Some (if is_None d0
               then (if cuda_is_available (world st1)
                     then VStr ("cuda:" ++ str_of_Z r) else VStr "cpu")
               else d0)
    /\ (is_None d0 = false ->
        count is_cuda_probe (trace st1) = count is_cuda_probe (trace st)).
Proof.
  intros H. destruct (startup_steps st H) as (s1 & s3 & H1 & H3 & H4).
  destruct (before_device_resolution st H1 H3) as [D P].
  rewrite resolve_device_cases in H4. rewrite D in H4.
  destruct (getattr (args st) "device") as [d0|]; [|discriminate].
  exists d0. split; [reflexivity|].
  destruct (is_None d0) eqn:Hn.
  - injection H4 as <-. simpl. rewrite getattr_setattr_same. split.
    + destruct (cuda_is_available (world s3)); [|reflexivity].
      unfold cuda_device. simpl. destruct (r =? 0) eqn:Hr; [|reflexivity].
      apply Z.eqb_eq in Hr. now subst r.
    + discriminate.
  - injection H4 as <-. split; [congruence|]. intros _. exact P.
Qed.

Lemma str_of_Z_inj (a b : Z) : str_of_Z a = str_of_Z b -> a = b.
Proof.
  unfold str_of_Z. intros H.
  assert (N : forall z, Z.to_int z <> Decimal.Pos Decimal.Nil
                        /\ Z.to_int z <> Decimal.Neg Decimal.Nil).
  { intros [|p|p]; simpl; split; try discriminate;
      intros E; injection E as E;
      exact (DecimalPos.Unsigned.to_uint_nonnil p E). }
  apply (f_equal NilZero.int_of_string) in H.
  rewrite !NilZero.isi in H by apply N.
  injection H as H. apply DecimalZ.to_int_inj. exact H.
Qed.

(** X4: with accelerators and no device given, two processes of different
    local rank get different devices. *)
Theorem ranks_get_distinct_devices (r1 r2 : Z) (st1 st2 : State W) :
  getattr (args st1) "device" = Some VNone ->
  getattr (args st2) "device" = Some VNone ->
  cuda_is_available (world st1) = true ->
  cuda_is_available (world st2) = true ->
  r1 <> r2 ->
  getattr (args (snd (resolve_device r1 st1))) "device"
    = Some (VStr ("cuda:" ++ str_of_Z r1))
  /\ getattr (args (snd (resolve_device r2 st2))) "device"
    = Some (VStr ("cuda:" ++ str_of_Z r2))
  /\ getattr (args (snd (resolve_device r1 st1))) "device"
       <> getattr (args (snd (resolve_device r2 st2))) "device".
Proof.
  intros D1 D2 C1 C2 Hne.
  assert (E : forall r st, getattr (args st) "device" = Some VNone ->
                cuda_is_available (world st) = true ->
                getattr (args (snd (resolve_device r st))) "device"
                  = Some (VStr ("cuda:" ++ str_of_Z r))).
  { intros r st D A. rewrite resolve_device_cases, D, A. simpl.
    rewrite getattr_setattr_same. unfold cuda_device. simpl.
    destruct (r =? 0) eqn:Hr; [|reflexivity].
    apply Z.eqb_eq in Hr. now subst r. }
  rewrite (E r1 st1 D1 C1), (E r2 st2 D2 C2).
  split; [reflexivity|]. split; [reflexivity|].
  intros H. injection H as H. apply Hne. apply str_of_Z_inj.
  revert H. generalize (str_of_Z r1) (str_of_Z r2). intros a b H.
  simpl in H. congruence.
Qed.

(** ** [run] step by step *)

Lemma run_unfold (st : State W) :
  run st =
  match getattr (args st) "command" with
  | None => (Raise (AttributeError "command"), st)
  | Some c =>
      if value_eqb c (VStr "list")
      then call (EvListRuns (args st)) (list_runs (args st)) st
      else heavy_path st
  end.
Proof.
  unfold run. unfold bind at 1. unfold attr at 1.
  destruct (getattr (args st) "command") as [c|]; [|reflexivity].
  destruct (value_eqb c (VStr "list")); reflexivity.
Qed.

Lemma heavy_path_unfold (st : State W) :
  heavy_path st =
  match resolve_layers (log_event (EvImport "transformers") st) with
  | (Raise e, s1) => (Raise e, s1)
  | (Return _, s1) =>
      match init_distributed (log_event (EvImport "torch.distributed") s1) with
      | (Raise e, s3) => (Raise e, s3)
      | (Return r, s3) =>
          match resolve_device r s3 with
          | (Raise e, s4) => (Raise e, s4)
          | (Return _, s4) => output_gate r (gated_body r) s4
          end
      end
  end.
Proof.
  unfold heavy_path, startup, bind, import_, ret.
  destruct (resolve_layers _) as [[[]|e] s1]; [|reflexivity].
  destruct (init_distributed _) as [[r|e] s3]; [|reflexivity].
  destruct (resolve_device r s3) as [[[]|e] s4]; reflexivity.
Qed.

(** ** The frame of [untouched] *)

Lemma untouched_refl (p : Event -> bool) (ks : list string) (s : State W) :
  untouched p ks s s.
Proof. split; auto. Qed.

Lemma untouched_trans (p : Event -> bool) (ks : list string)
    (a b c : State W) :
  untouched p ks a b -> untouched p ks b c -> untouched p ks a c.
Proof.
  intros [A1 A2] [B1 B2]. split; [congruence|].
  intros k Hk. rewrite B2, A2; auto.
Qed.

Lemma untouched_log (p : Event -> bool) (ks : list string) (e : Event)
    (s : State W) :
  p e = false -> untouched p ks s (log_event e s).
Proof.
  intros He. split; [|auto]. simpl. rewrite count_app.
  unfold count at 2. simpl. rewrite He. simpl. lia.
Qed.

Lemma untouched_world (p : Event -> bool) (ks : list string) (w : W)
    (s : State W) :
  untouched p ks s (set_world w s).
Proof. split; auto. Qed.

Lemma untouched_assign (p : Event -> bool) (ks : list string) (k : string)
    (v : value) (s : State W) :
  ~ In k ks -> untouched p ks s (set_args (setattr (args s) k v) s).
Proof.
  intros Hk. split; [reflexivity|]. intros k' Hk'. simpl.
  apply getattr_setattr_other. intros ->. tauto.
Qed.

Lemma untouched_print (p : Event -> bool) (ks : list string) (line : string)
    (s : State W) :
  untouched p ks s (snd (print line s)).
Proof. unfold print. destruct (sys_stdout s); split; auto. Qed.

Lemma untouched_level (p : Event -> bool) (ks : list string) (l : Z)
    (s : State W) :
  untouched p ks s (set_level l s).
Proof. split; auto. Qed.

Lemma untouched_redirect (p : Event -> bool) (ks : list string)
    (o : option Handle) (body : M unit) :
  keeps (@untouched W p ks) body -> keeps (@untouched W p ks) (redirect_stdout o body).
Proof.
  intros Hb s. unfold redirect_stdout. specialize (Hb (set_stdout o s)).
  destruct (body (set_stdout o s)) as [r sb]. exact Hb.
Qed.

Lemma untouched_by_resolve_layers (p : Event -> bool) (ks : list string) :
  (forall m, p (EvFromPretrained m) = false) -> ~ In "layers" ks ->
  keeps (@untouched W p ks) resolve_layers.
Proof.
  intros Hp Hk.
  apply keeps_resolve_layers
    with (loggable := fun e => p e = false) (assignable := fun k => ~ In k ks);
    auto using untouched_refl, untouched_world.
  - apply untouched_trans.
  - intros e s He. apply untouched_log. exact He.
  - intros k v s Hn. apply untouched_assign. exact Hn.
Qed.

Lemma untouched_by_init_distributed (p : Event -> bool) (ks : list string) :
  p (EvInitProcessGroup "nccl") = false ->
  keeps (@untouched W p ks) init_distributed.
Proof.
  intros Hp.
  apply keeps_init_distributed with (loggable := fun e => p e = false);
    auto using untouched_refl, untouched_world.
  - apply untouched_trans.
  - intros e s He. apply untouched_log. exact He.
Qed.

Lemma untouched_by_resolve_device (p : Event -> bool) (ks : list string)
    (r : Z) :
  p (EvImport "torch") = false -> p EvCudaIsAvailable = false ->
  ~ In "device" ks ->
  keeps (@untouched W p ks) (resolve_device r).
Proof.
  intros H1 H2 Hk.
  apply keeps_resolve_device
    with (loggable := fun e => p e = false) (assignable := fun k => ~ In k ks);
    auto using untouched_refl.
  - apply untouched_trans.
  - intros e s He. apply untouched_log. exact He.
  - intros k v s Hn. apply untouched_assign. exact Hn.
Qed.

Lemma untouched_by_startup (p : Event -> bool) (ks : list string) :
  (forall m, p (EvImport m) = false) ->
  (forall m, p (EvFromPretrained m) = false) ->
  p (EvInitProcessGroup "nccl") = false -> p EvCudaIsAvailable = false ->
  ~ In "layers" ks -> ~ In "device" ks ->
  keeps (@untouched W p ks) startup.
Proof.
  intros H1 H2 H3 H4 K1 K2.
  apply keeps_startup
    with (loggable := fun e => p e = false) (assignable := fun k => ~ In k ks);
    auto using untouched_refl, untouched_world.
  - apply untouched_trans.
  - intros e s He. apply untouched_log. exact He.
  - intros k v s Hn. apply untouched_assign. exact Hn.
Qed.

Lemma untouched_by_gate (p : Event -> bool) (ks : list string) (r : Z) :
  (forall m, p (EvImport m) = false) ->
  (forall a, p (EvArgsToUuid a) = false) ->
  (forall a, p (EvTrain a) = false) -> (forall a, p (EvExtract a) = false) ->
  (forall a, p (EvEvaluate a) = false) ->
  p EvIsInitialized = false -> p EvBarrier = false ->
  ~ In "name" ks ->
  keeps (@untouched W p ks) (output_gate r (gated_body r)).
Proof.
  intros H0 H1 H2 H3 H4 H5 H6 K.
  assert (G : keeps (@untouched W p ks) (gated_body r)).
  { apply keeps_gated_body
      with (loggable := fun e => p e = false)
           (assignable := fun k => ~ In k ks);
      auto using untouched_refl, untouched_world, untouched_print,
                 untouched_level.
    - apply untouched_trans.
    - intros e s He. apply untouched_log. exact He.
    - intros k v s Hn. apply untouched_assign. exact Hn. }
  unfold output_gate, nullcontext.
  destruct (negb _); [apply untouched_redirect|]; exact G.
Qed.

(** ** Rank and process group, lines 80-89 *)

(** X5: without [LOCAL_RANK] in the environment [run] never calls
    [dist.init_process_group], on any command and any exit path, and the
    local rank it works with is zero. *)
Theorem single_process_run_creates_no_group (st : State W) :
  environ_LOCAL_RANK st = None ->
  count is_init_group (trace (snd (run st))) = count is_init_group (trace st)
  /\ (forall r st1, startup st = (Return r, st1) -> r = 0).
Proof.
  intros He. split.
  2: { intros r st1 H. pose proof (startup_rank st H) as K.
       rewrite He in K. exact K. }
  cut (@untouched W is_init_group [] st (snd (run st))); [intros [H _]; exact H|].
  rewrite run_unfold.
  destruct (getattr (args st) "command") as [c|]; [|apply untouched_refl].
  destruct (value_eqb c (VStr "list")).
  { unfold call. destruct (list_runs _ _) as [o w]. simpl.
    eapply untouched_trans; [apply untouched_log|apply untouched_world].
    reflexivity. }
  rewrite heavy_path_unfold.
  set (s0 := log_event (EvImport "transformers") st).
  assert (U0 : @untouched W is_init_group [] st s0)
    by (apply untouched_log; reflexivity).
  pose proof (@untouched_by_resolve_layers is_init_group []
                ltac:(reflexivity) ltac:(simpl; tauto) s0) as U1.
  pose proof (resolve_layers_keeps_environ s0) as E1.
  unfold same_environ in E1. simpl in E1.
  destruct (resolve_layers s0) as [[[]|e] s1]; simpl in U1, E1;
    [|eapply untouched_trans; eauto].
  set (s2 := log_event (EvImport "torch.distributed") s1).
  assert (U2 : @untouched W is_init_group [] s1 s2)
    by (apply untouched_log; reflexivity).
  assert (I : init_distributed s2 = (Return 0, s2)).
  { unfold init_distributed. simpl. rewrite E1, He. reflexivity. }
  rewrite I.
  pose proof (@untouched_by_resolve_device is_init_group [] 0
                ltac:(reflexivity) ltac:(reflexivity) ltac:(simpl; tauto) s2)
    as U3.
  assert (U02 : @untouched W is_init_group [] st s2).
  { eapply untouched_trans; [exact U0|].
    eapply untouched_trans; [exact U1|exact U2]. }
  destruct (resolve_device 0 s2) as [[[]|e] s4]; simpl in U3;
    [|eapply untouched_trans; eauto].
  pose proof (@untouched_by_gate is_init_group [] 0
                ltac:(reflexivity) ltac:(reflexivity) ltac:(reflexivity)
                ltac:(reflexivity) ltac:(reflexivity) ltac:(reflexivity)
                ltac:(reflexivity) ltac:(simpl; tauto) s4) as U4.
  eapply untouched_trans; [exact U02|].
  eapply untouched_trans; [exact U3|exact U4].
Qed.

(** X6: with [LOCAL_RANK] set to a string that [int] rejects, a run whose
    layer resolution and [dist.init_process_group("nccl")] have returned
    ends with a [ValueError]: the group has been created first, and
    neither the device resolution nor anything after it takes place. *)
Theorem malformed_rank_fails_after_group_init (st s1 : State W) (c : value)
    (s : string) (w' : W) :
  getattr (args st) "command" = Some c ->
  value_eqb c (VStr "list") = false ->
  resolve_layers (log_event (EvImport "transformers") st) = (Return tt, s1) ->
  environ_LOCAL_RANK st = Some s ->
  init_process_group "nccl" (world s1) = (Return tt, w') ->
  int_of_str s = None ->
  (exists msg, fst (run st) = Raise (ValueError msg))
  /\ snd (run st) =
       set_world w'
         (log_event (EvInitProcessGroup "nccl")
            (log_event (EvImport "torch.distributed") s1)).
Proof.
  intros Hc Hl H1 He Hg Hi.
  rewrite run_unfold, Hc, Hl, heavy_path_unfold, H1.
  pose proof (resolve_layers_keeps_environ
                (log_event (EvImport "transformers") st)) as E1.
  rewrite H1 in E1. unfold same_environ in E1. simpl in E1.
  unfold init_distributed. simpl. rewrite E1, He.
  unfold bind, call. simpl. rewrite Hg, Hi. simpl.
  split; [eexists; reflexivity | reflexivity].
Qed.

(** ** Failures of layer resolution, lines 66-78 *)

Lemma resolve_layers_raise_keeps_args (st : State W) (e : exn) :
  fst (resolve_layers st) = Raise e ->
  args (snd (resolve_layers st)) = args st.
Proof.
  unfold resolve_layers. open_m.
  destruct (truthy _); [|discriminate]. open_m.
  destruct (from_pretrained _ _) as [[cfg|e0] w']; [|reflexivity]. open_m.
  destruct (is_pretrained_config cfg); [|reflexivity]. open_m.
  destruct (cfg_num_hidden_layers cfg) as [h|]; [|reflexivity]. open_m.
  destruct (as_int (match cfg_num_layers cfg with Some _ => _ | None => _ end))
    as [L|]; [|reflexivity]. open_m.
  destruct (getattr (args st) "layers") as [lv|]; [|reflexivity]. open_m.
  destruct (getattr (args st) "layer_stride") as [sv|] eqn:Hs;
    [destruct (as_int sv) as [step|] eqn:Hz;
       [destruct (1 <? step) eqn:Hgt|]|];
    destruct (truthy lv);
    repeat (progress (open_m; rewrite ?Hs, ?Hz, ?Hgt));
    try reflexivity; try discriminate.
Qed.

(** X7: whatever makes layer resolution raise (the provider, an assertion,
    a missing attribute, the conflict of options), [run] ends with that
    exception at once: the namespace is as parsed, no process group has
    been created, no stage has been called and nothing has been printed. *)
Theorem layer_resolution_failure_ends_run (st s1 : State W) (c : value)
    (e : exn) :
  getattr (args st) "command" = Some c ->
  value_eqb c (VStr "list") = false ->
  resolve_layers (log_event (EvImport "transformers") st) = (Raise e, s1) ->
  run st = (Raise e, s1)
  /\ args s1 = args st
  /\ count is_init_group (trace s1) = count is_init_group (trace st)
  /\ count is_stage (trace s1) = count is_stage (trace st)
  /\ printed s1 = printed st.
Proof.
  intros Hc Hl H1.
  split; [rewrite run_unfold, Hc, Hl, heavy_path_unfold, H1; reflexivity|].
  set (s0 := log_event (EvImport "transformers") st) in *.
  split.
  { pose proof (@resolve_layers_raise_keeps_args s0 e) as A.
    rewrite H1 in A. apply A. reflexivity. }
  pose proof (@untouched_by_resolve_layers is_init_group []
                ltac:(reflexivity) ltac:(simpl; tauto) s0) as [U1 _].
  pose proof (@untouched_by_resolve_layers is_stage []
                ltac:(reflexivity) ltac:(simpl; tauto) s0) as [U2 _].
  pose proof (@keeps_resolve_layers W C same_output
                (fun _ => True) (fun _ => True)
                (@same_output_refl W) (@same_output_trans W)
                ltac:(intros; repeat split) ltac:(intros; repeat split)
                ltac:(intros; repeat split) ltac:(intros; exact I) I s0)
    as (_ & P & _).
  rewrite H1 in U1, U2, P. simpl in U1, U2, P.
  unfold s0 in U1, U2. simpl in U1, U2. rewrite count_app in U1, U2.
  unfold count at 3 in U1. unfold count at 3 in U2. simpl in U1, U2.
  repeat split; try lia. exact P.
Qed.

(** ** Dispatch, lines 113-135 *)

Lemma dispatch_unknown (st : State W) (c : value) :
  getattr (args st) "command" = Some c ->
  value_eqb c (VStr "extract") = false ->
  value_eqb c (VStr "train") = false ->
  value_eqb c (VStr "elicit") = false ->
  value_eqb c (VStr "eval") = false ->
  dispatch st = (Raise (ValueError ("Unknown command " ++ py_str c)), st).
Proof.
  intros Hc H1 H2 H3 H4. unfold dispatch. open_m. rewrite Hc. simpl.
  rewrite H1, Hc. simpl. rewrite H2, Hc. simpl. rewrite H3, Hc. simpl.
  rewrite H4, Hc. reflexivity.
Qed.

(** X8: a command that is none of [list], [extract], [train], [elicit],
    [eval] is rejected only by the last branch of the dispatch: when
    [startup] returns, [run] raises [ValueError("Unknown command <c>")],
    with the namespace as [startup] resolved it, and no stage has been
    called. *)
Theorem unknown_command_is_rejected_at_dispatch (st st1 : State W)
    (c : value) (r : Z) :
  getattr (args st) "command" = Some c ->
  value_eqb c (VStr "list") = false ->
  value_eqb c (VStr "extract") = false ->
  value_eqb c (VStr "train") = false ->
  value_eqb c (VStr "elicit") = false ->
  value_eqb c (VStr "eval") = false ->
  startup st = (Return r, st1) ->
  fst (run st) = Raise (ValueError ("Unknown command " ++ py_str c))
  /\ args (snd (run st)) = args st1
  /\ count is_stage (trace (snd (run st))) = count is_stage (trace st).
Proof.
  intros Hc H0 H1 H2 H3 H4 Hs.
  pose proof (@untouched_by_startup is_stage ["command"]
                ltac:(reflexivity) ltac:(reflexivity) ltac:(reflexivity)
                ltac:(reflexivity)
                ltac:(simpl; intuition discriminate)
                ltac:(simpl; intuition discriminate) st) as [U1 U2].
  rewrite Hs in U1, U2. simpl in U1, U2.
  specialize (U2 "command" ltac:(now left)). rewrite Hc in U2.
  destruct (run_reaches_dispatch st Hc H0 Hs)
    as (s & A & _ & T & F & TT & _ & AA).
  rewrite <- A in U2.
  rewrite (dispatch_unknown s U2 H1 H2 H3 H4) in F, TT, AA. simpl in F, TT, AA.
  rewrite F, TT, AA, T, A, count_app. unfold count at 2. simpl.
  repeat split. lia.
Qed.

(** X9: [extract], [train] and [eval] are one call each, of
    [run_extraction], [train] and [evaluate], on the namespace as it is;
    the outcome of that call is the outcome of the dispatch.  In particular
    a [train] that raises [FileNotFoundError] or [EOFError] under the
    [train] command is not followed by an extraction. *)
Theorem plain_commands_call_one_stage (st : State W) :
  (getattr (args st) "command" = Some (VStr "extract") ->
     dispatch st = call (EvExtract (args st)) (run_extraction (args st)) st)
  /\ (getattr (args st) "command" = Some (VStr "train") ->
     dispatch st = call (EvTrain (args st)) (train (args st)) st
     /\ fst (dispatch st) = fst (train (args st) (world st))
     /\ trace (snd (dispatch st)) = (trace st ++ [EvTrain (args st)])%list
     /\ count is_extract (trace (snd (dispatch st)))
          = count is_extract (trace st))
  /\ (getattr (args st) "command" = Some (VStr "eval") ->
     dispatch st = call (EvEvaluate (args st)) (evaluate (args st)) st).
Proof.
  split; [|split]; intros Hc.
  - unfold dispatch. unfold bind at 1. unfold attr at 1. rewrite Hc.
    reflexivity.
  - assert (E : dispatch st = call (EvTrain (args st)) (train (args st)) st).
    { unfold dispatch. unfold bind at 1. unfold attr at 1. rewrite Hc.
      simpl. unfold bind at 1. unfold attr at 1. rewrite Hc. reflexivity. }
    rewrite E. split; [reflexivity|]. unfold call.
    destruct (train (args st) (world st)) as [o w]. simpl.
    rewrite count_app. unfold count at 2. simpl. repeat split. lia.
  - unfold dispatch. unfold bind at 1. unfold attr at 1. rewrite Hc. simpl.
    unfold bind at 1. unfold attr at 1. rewrite Hc. simpl.
    unfold bind at 1. unfold attr at 1. rewrite Hc. simpl.
    unfold bind at 1. unfold attr at 1. rewrite Hc. reflexivity.
Qed.

(** X10: in the elicit branch, when the first [train] returns, the branch
    returns: [train] has been called once, and neither [run_extraction]
    nor [dist.is_initialized] nor [dist.barrier] has been called. *)
Theorem elicit_with_cache_trains_once (st : State W) (u : value)
    (w1 w2 : W) :
  getattr (args st) "command" = Some (VStr "elicit") ->
  args_to_uuid (args st) (world st) = (Return u, w1) ->
  train (setattr (args st) "name" u) w1 = (Return tt, w2) ->
  fst (dispatch st) = Return tt
  /\ world (snd (dispatch st)) = w2
  /\ trace (snd (dispatch st)) =
       (trace st ++ [EvArgsToUuid (args st);
                     EvTrain (setattr (args st) "name" u)])%list
  /\ count is_extract (trace (snd (dispatch st))) = count is_extract (trace st)
  /\ count is_group_query (trace (snd (dispatch st)))
       = count is_group_query (trace st)
  /\ count is_barrier (trace (snd (dispatch st))) = count is_barrier (trace st).
Proof.
  intros Hc Hu Ht.
  rewrite (dispatch_elicit st Hc), (elicit_first_train st Hu Ht).
  unfold after_first_train. simpl. rewrite !count_app.
  unfold count. simpl. repeat split; lia.
Qed.

(** ** The layer count, lines 67-71 *)

(** X11: the layer count is [config.num_layers] when the configuration has
    that attribute, and [config.num_hidden_layers] otherwise; but
    [config.num_hidden_layers] is read in both cases, so a configuration
    without it makes layer resolution raise [AttributeError], even when
    [num_layers] is there. *)
Theorem layer_count_prefers_num_layers (st : State W) (m : value)
    (cfg : PyConfig) (w' : W) :
  getattr (args st) "model" = Some m -> truthy m = true ->
  from_pretrained m (world st) = (Return cfg, w') ->
  is_pretrained_config cfg = true ->
  (cfg_num_hidden_layers cfg = None ->
     resolve_layers st =
       (Raise (AttributeError "num_hidden_layers"),
        set_world w' (log_event (EvFromPretrained m) st)))
  /\ (forall a h lv s,
        cfg_num_layers cfg = Some (VInt a) ->
        cfg_num_hidden_layers cfg = Some h ->
        getattr (args st) "layers" = Some lv -> truthy lv = false ->
        getattr (args st) "layer_stride" = Some (VInt s) -> 1 < s ->
        getattr (args (snd (resolve_layers st))) "layers"
          = Some (VList (py_range a s)))
  /\ (forall b lv s,
        cfg_num_layers cfg = None ->
        cfg_num_hidden_layers cfg = Some (VInt b) ->
        getattr (args st) "layers" = Some lv -> truthy lv = false ->
        getattr (args st) "layer_stride" = Some (VInt s) -> 1 < s ->
        getattr (args (snd (resolve_layers st))) "layers"
          = Some (VList (py_range b s))).
Proof.
  intros Hm Ht Hq Hp. split; [|split].
  - intros Hh. unfold resolve_layers. open_m. rewrite Hm, Ht, Hq. open_m.
    rewrite Hp. open_m. rewrite Hh. reflexivity.
  - intros a h lv s Ha Hh Hl Hf Hs Hgt.
    assert (HL : layer_count cfg = Some a).
    { unfold layer_count. rewrite Hp, Hh, Ha. reflexivity. }
    rewrite (resolve_layers_after_query st Hm Ht Hq HL Hl Hs eq_refl).
    apply Z.ltb_lt in Hgt. rewrite Hf, Hgt. simpl.
    apply getattr_setattr_same.
  - intros b lv s Ha Hh Hl Hf Hs Hgt.
    assert (HL : layer_count cfg = Some b).
    { unfold layer_count. rewrite Hp, Hh, Ha. reflexivity. }
    rewrite (resolve_layers_after_query st Hm Ht Hq HL Hl Hs eq_refl).
    apply Z.ltb_lt in Hgt. rewrite Hf, Hgt. simpl.
    apply getattr_setattr_same.
Qed.

(** ** What a process writes and silences, on every exit path *)

Lemma resolve_layers_keeps_output : keeps same_output resolve_layers.
Proof.
  apply keeps_resolve_layers
    with (loggable := fun _ => True) (assignable := fun _ => True);
    first [ exact (@same_output_refl W) | exact (@same_output_trans W)
          | intros; exact I | intros; repeat split ].
Qed.

Lemma init_distributed_keeps_output : keeps same_output init_distributed.
Proof.
  apply keeps_init_distributed with (loggable := fun _ => True);
    first [ exact (@same_output_refl W) | exact (@same_output_trans W)
          | intros; exact I | intros; repeat split ].
Qed.

Lemma resolve_device_keeps_output (r : Z) :
  keeps same_output (resolve_device r).
Proof.
  apply keeps_resolve_device
    with (loggable := fun _ => True) (assignable := fun _ => True);
    first [ exact (@same_output_refl W) | exact (@same_output_trans W)
          | intros; exact I | intros; repeat split ].
Qed.

(** The rank [init_distributed] returns, when it returns. *)
Lemma init_distributed_rank (st st' : State W) (r : Z) :
  init_distributed st = (Return r, st') ->
  match environ_LOCAL_RANK st with
  | Some s => int_of_str s = Some r
  | None => r = 0
  end.
Proof.
  unfold init_distributed. destruct (environ_LOCAL_RANK st) as [s|].
  - unfold bind, call. destruct (init_process_group _ _) as [[[]|e] w];
      simpl; [|discriminate].
    destruct (int_of_str s) as [z|]; simpl; [|discriminate].
    unfold ret. congruence.
  - congruence.
Qed.

Ltac fin :=
  repeat match goal with x := _ |- _ => subst x end;
  simpl in *; congruence.

(** X12: a process whose [LOCAL_RANK] is not zero never writes a line
    itself, whatever the command and however [run] ends; and a process
    without [LOCAL_RANK] never changes the level of the transformers
    logger. *)
Theorem output_of_a_process_on_every_path (st : State W) :
  (forall s r, environ_LOCAL_RANK st = Some s -> int_of_str s = Some r ->
               r <> 0 -> printed (snd (run st)) = printed st)
  /\ (environ_LOCAL_RANK st = None ->
      transformers_level (snd (run st)) = transformers_level st).
Proof.
  assert (G : forall rk,
    match environ_LOCAL_RANK st with
    | Some s => int_of_str s = Some rk
    | None => rk = 0
    end ->
    (rk <> 0 -> printed (snd (run st)) = printed st)
    /\ (rk = 0 -> transformers_level (snd (run st)) = transformers_level st)).
  { intros rk Hrk. rewrite run_unfold.
    destruct (getattr (args st) "command") as [c|]; [|split; reflexivity].
    destruct (value_eqb c (VStr "list")).
    { unfold call. destruct (list_runs _ _) as [o w]. split; reflexivity. }
    rewrite heavy_path_unfold.
    set (s0 := log_event (EvImport "transformers") st).
    pose proof (resolve_layers_keeps_output s0) as (_ & P1 & L1).
    pose proof (resolve_layers_keeps_environ s0) as E1.
    unfold same_environ in E1. simpl in P1, L1, E1.
    destruct (resolve_layers s0) as [[[]|e] s1]; simpl in P1, L1, E1;
      [|split; intros _; fin].
    set (s2 := log_event (EvImport "torch.distributed") s1).
    pose proof (init_distributed_keeps_output s2) as (_ & P3 & L3).
    pose proof (@init_distributed_rank s2) as R3.
    simpl in P3, L3.
    destruct (init_distributed s2) as [[r'|e] s3]; simpl in P3, L3;
      [|split; intros _; fin].
    specialize (R3 s3 r' eq_refl). simpl in R3. rewrite E1 in R3.
    assert (r' = rk).
    { destruct (environ_LOCAL_RANK st); congruence. }
    subst r'.
    pose proof (resolve_device_keeps_output rk s3) as (_ & P4 & L4).
    destruct (resolve_device rk s3) as [[[]|e] s4]; simpl in P4, L4;
      [|split; intros _; fin].
    split.
    - intros Hne. unfold output_gate.
      pose proof Hne as Hb. apply Z.eqb_neq in Hb. rewrite Hb.
      cbv beta iota delta [negb]. unfold redirect_stdout.
      destruct (@gated_body_nonroot W C rk (set_stdout None s4) Hne eq_refl)
        as (_ & P5 & _).
      destruct (gated_body rk (set_stdout None s4)) as [o sb].
      fin.
    - intros ->. unfold output_gate. simpl. unfold nullcontext.
      destruct (gated_body_root s4) as (_ & _ & L5). fin. }
  split.
  - intros s r Hs Hi Hne. apply (G r); [rewrite Hs; exact Hi | exact Hne].
  - intros Hn. apply (G 0); [rewrite Hn|]; reflexivity.
Qed.

End MoreProperties.

(** * The rest of [run] on the concrete collaborators *)

Import MoreFixture.

Lemma strided_layers_are_the_multiples_below_witness :
  StronglySorted Z.lt (py_range 12 5)
  /\ (In 10 (py_range 12 5) <-> 0 <= 10 < 12 /\ 10 mod 5 = 0).
Proof.
  destruct (@strided_layers_are_the_multiples_below 12 5 ltac:(lia))
    as [S M].
  split; [exact S | exact (M 10)].
Defined.

Lemma stride_beyond_depth_selects_layer_zero_witness :
  py_range 3 5 = [0] /\ py_range 0 5 = [].
Proof.
  split.
  - apply (@stride_beyond_depth_selects_layer_zero 3 5); lia.
  - apply (@stride_beyond_depth_selects_layer_zero 0 5); lia.
Defined.

Lemma startup_resolves_device_witness :
  getattr (args (snd (startup (start cuda_world elicit_args (Some "1")))))
          "device" = Some (VStr "cuda:1")
  /\ getattr (args (snd (startup (start cuda_world pinned_args (Some "1")))))
             "device" = Some (VStr "cuda:3").
Proof.
  split.
  - destruct (@startup_resolves_device World collaborators
                (start cuda_world elicit_args (Some "1"))
                (snd (@startup World collaborators
                        (start cuda_world elicit_args (Some "1"))))
                1 eq_refl) as (d0 & H0 & H1 & _).
    injection H0 as <-. exact H1.
  - destruct (@startup_resolves_device World collaborators
                (start cuda_world pinned_args (Some "1"))
                (snd (@startup World collaborators
                        (start cuda_world pinned_args (Some "1"))))
                1 eq_refl) as (d0 & H0 & H1 & _).
    injection H0 as <-. exact H1.
Defined.

Lemma ranks_get_distinct_devices_witness :
  getattr (args (snd (resolve_device 0 (start cuda_world elicit_args None))))
          "device"
  <> getattr (args (snd (resolve_device 1
                           (start cuda_world elicit_args (Some "1")))))
             "device".
Proof.
  apply (@ranks_get_distinct_devices World collaborators 0 1
           (start cuda_world elicit_args None)
           (start cuda_world elicit_args (Some "1")));
    first [reflexivity | discriminate].
Defined.

Lemma single_process_run_creates_no_group_witness :
  count is_init_group (trace (snd (run (start fresh_world elicit_args None))))
    = 0%nat.
Proof.
  apply (@single_process_run_creates_no_group World collaborators
           (start fresh_world elicit_args None)).
  reflexivity.
Defined.

Lemma malformed_rank_fails_after_group_init_witness :
  trace (snd (run (start fresh_world elicit_args (Some "one"))))
    = [EvImport "transformers"; EvFromPretrained (VStr "gpt2");
       EvImport "torch.distributed"; EvInitProcessGroup "nccl"].
Proof.
  destruct (@malformed_rank_fails_after_group_init World collaborators
              (start fresh_world elicit_args (Some "one"))
              (snd (@resolve_layers World collaborators
                      (log_event (EvImport "transformers")
                         (start fresh_world elicit_args (Some "one")))))
              (VStr "elicit") "one"
              (mkWorld false false false true false false 12)
              eq_refl eq_refl eq_refl eq_refl eq_refl eq_refl) as [_ H].
  rewrite H. reflexivity.
Defined.

Lemma layer_resolution_failure_ends_run_witness :
  fst (run (start fresh_world conflict_args (Some "1")))
    = Raise (ValueError conflict_message)
  /\ args (snd (run (start fresh_world conflict_args (Some "1"))))
     = conflict_args
  /\ count is_init_group
       (trace (snd (run (start fresh_world conflict_args (Some "1")))))
     = 0%nat.
Proof.
  destruct (@layer_resolution_failure_ends_run World collaborators
              (start fresh_world conflict_args (Some "1"))
              (snd (@resolve_layers World collaborators
                      (log_event (EvImport "transformers")
                         (start fresh_world conflict_args (Some "1")))))
              (VStr "extract") (ValueError conflict_message)
              eq_refl eq_refl eq_refl) as (R & A & G & _).
  rewrite R. split; [reflexivity|]. split; [exact A | exact G].
Defined.

Lemma unknown_command_is_rejected_at_dispatch_witness :
  fst (run (start fresh_world bogus_args None))
    = Raise (ValueError "Unknown command probe")
  /\ count is_stage (trace (snd (run (start fresh_world bogus_args None))))
     = 0%nat.
Proof.
  destruct (@unknown_command_is_rejected_at_dispatch World collaborators
              (start fresh_world bogus_args None)
              (snd (@startup World collaborators
                      (start fresh_world bogus_args None)))
              (VStr "probe") 0
              eq_refl eq_refl eq_refl eq_refl eq_refl eq_refl eq_refl)
    as (F & _ & S).
  split; [exact F | exact S].
Defined.

Lemma plain_commands_call_one_stage_witness :
  (trace (snd (dispatch (start fresh_world stride_args None)))
     = [EvExtract stride_args])
  /\ (fst (dispatch (start fresh_world train_args None))
        = Raise FileNotFoundError
      /\ count is_extract
           (trace (snd (dispatch (start fresh_world train_args None))))
         = 0%nat)
  /\ (trace (snd (dispatch (start fresh_world eval_args None)))
        = [EvEvaluate eval_args]).
Proof.
  destruct (@plain_commands_call_one_stage World collaborators
              (start fresh_world stride_args None)) as (H & _ & _).
  destruct (@plain_commands_call_one_stage World collaborators
              (start fresh_world train_args None)) as (_ & H' & _).
  destruct (@plain_commands_call_one_stage World collaborators
              (start fresh_world eval_args None)) as (_ & _ & H'').
  split; [|split].
  - rewrite (H eq_refl). reflexivity.
  - destruct (H' eq_refl) as (_ & F & _ & X). split; [exact F | exact X].
  - rewrite (H'' eq_refl). reflexivity.
Defined.

Lemma elicit_with_cache_trains_once_witness :
  trace (snd (dispatch (start ready_world elicit_args None)))
    = [EvArgsToUuid elicit_args;
       EvTrain (setattr elicit_args "name" (VStr "run-0"))].
Proof.
  destruct (@elicit_with_cache_trains_once World collaborators
              (start ready_world elicit_args None) (VStr "run-0")
              ready_world ready_world eq_refl eq_refl eq_refl)
    as (_ & _ & T & _).
  exact T.
Defined.

Lemma layer_count_prefers_num_layers_witness :
  fst (@resolve_layers World
         (collaborators_with_config (mkPyConfig true (Some (VInt 6)) None))
         (start fresh_world stride_args None))
    = Raise (AttributeError "num_hidden_layers")
  /\ getattr
       (args (snd (@resolve_layers World
                     (collaborators_with_config
                        (mkPyConfig true (Some (VInt 6)) (Some (VInt 12))))
                     (start fresh_world stride_args None))))
       "layers" = Some (VList [0; 5])
  /\ getattr
       (args (snd (@resolve_layers World
                     (collaborators_with_config
                        (mkPyConfig true None (Some (VInt 12))))
                     (start fresh_world stride_args None))))
       "layers" = Some (VList [0; 5; 10]).
Proof.
  split; [|split].
  - destruct (@layer_count_prefers_num_layers World
                (collaborators_with_config
                   (mkPyConfig true (Some (VInt 6)) None))
                (start fresh_world stride_args None) (VStr "gpt2")
                (mkPyConfig true (Some (VInt 6)) None) fresh_world
                eq_refl eq_refl eq_refl eq_refl) as (H & _ & _).
    rewrite (H eq_refl). reflexivity.
  - destruct (@layer_count_prefers_num_layers World
                (collaborators_with_config
                   (mkPyConfig true (Some (VInt 6)) (Some (VInt 12))))
                (start fresh_world stride_args None) (VStr "gpt2")
                (mkPyConfig true (Some (VInt 6)) (Some (VInt 12))) fresh_world
                eq_refl eq_refl eq_refl eq_refl) as (_ & H & _).
    exact (H 6 (VInt 12) (VList []) 5 eq_refl eq_refl eq_refl eq_refl eq_refl
             eq_refl).
  - destruct (@layer_count_prefers_num_layers World
                (collaborators_with_config
                   (mkPyConfig true None (Some (VInt 12))))
                (start fresh_world stride_args None) (VStr "gpt2")
                (mkPyConfig true None (Some (VInt 12))) fresh_world
                eq_refl eq_refl eq_refl eq_refl) as (_ & _ & H).
    exact (H 12 (VList []) 5 eq_refl eq_refl eq_refl eq_refl eq_refl
             eq_refl).
Defined.

Lemma output_of_a_process_on_every_path_witness :
  printed (snd (run (start full_disk_world elicit_args (Some "1")))) = []
  /\ transformers_level (snd (run (start full_disk_world elicit_args None)))
     = 30.
Proof.
  split.
  - destruct (@output_of_a_process_on_every_path World collaborators
                (start full_disk_world elicit_args (Some "1"))) as [H _].
    apply (H "1" 1); first [reflexivity | discriminate].
  - destruct (@output_of_a_process_on_every_path World collaborators
                (start full_disk_world elicit_args None)) as [_ H].
    apply H. reflexivity.
Defined.
